(** * FuelFlow: the persistence gateway of [server/storage.ts]

    A shallow embedding of [DatabaseStorage]: the header/line-item
    workflows ([createSalesTransaction], [createPurchaseOrder], the two
    [delete...Secure] operations), the absolute-set ledger updates
    ([updateTankStock], [updateCustomerBalance]) and the aggregates of
    [getDashboardStats] the ledger properties are about.

    Conventions.
    - A table is the list of its rows, in insertion order.
    - A [numeric] column (drizzle hands it over as a decimal string) is
      the exact decimal it denotes, counted in hundredths: an integer.
    - A [timestamp] column and a JS [Date] are milliseconds since the epoch.
    - [shared/schema.ts] and [server/db.ts] are not part of the sources at
      hand: what the relational store decides on its own (generated ids,
      which rows a table accepts) is the parameter [Schema]; what it
      decides when rows are rewritten is the parameter [Rewrites]. *)

From Stdlib Require Import List ZArith String Bool Lia Permutation.
Import ListNotations.

Open Scope string_scope.
Open Scope list_scope.
Open Scope Z_scope.

(** ** Rows *)

Definition Id := string.
Definition Numeric := Z.
Definition Timestamp := Z.

Record SalesTransaction := mkSalesTransaction {
  st_id : Id;
  st_stationId : Id;
  st_customerId : option Id;
  st_invoiceNumber : string;
  st_paymentMethod : string;
  st_totalAmount : Numeric;
  st_transactionDate : Timestamp
}.

Record InsertSalesTransaction := mkInsertSalesTransaction {
  ist_stationId : Id;
  ist_customerId : option Id;
  ist_invoiceNumber : string;
  ist_paymentMethod : string;
  ist_totalAmount : Numeric;
  ist_transactionDate : Timestamp
}.

Record SalesTransactionItem := mkSalesTransactionItem {
  sti_id : Id;
  sti_transactionId : Id;
  sti_productId : Id;
  sti_quantity : Numeric;
  sti_unitPrice : Numeric;
  sti_totalPrice : Numeric
}.

(** The line item as the caller hands it over; [transactionId] is whatever
    the caller put there, [createSalesTransaction] overwrites it. *)
Record InsertSalesTransactionItem := mkInsertSalesTransactionItem {
  isti_transactionId : Id;
  isti_productId : Id;
  isti_quantity : Numeric;
  isti_unitPrice : Numeric;
  isti_totalPrice : Numeric
}.

Record PurchaseOrder := mkPurchaseOrder {
  po_id : Id;
  po_stationId : Id;
  po_supplierId : Id;
  po_orderNumber : string;
  po_status : string;
  po_totalAmount : Numeric;
  po_orderDate : Timestamp
}.

(** [status] is optional on insert: the column has a default. *)
Record InsertPurchaseOrder := mkInsertPurchaseOrder {
  ipo_stationId : Id;
  ipo_supplierId : Id;
  ipo_orderNumber : string;
  ipo_status : option string;
  ipo_totalAmount : Numeric;
  ipo_orderDate : Timestamp
}.

Record PurchaseOrderItem := mkPurchaseOrderItem {
  poi_id : Id;
  poi_orderId : Id;
  poi_productId : Id;
  poi_quantity : Numeric;
  poi_unitPrice : Numeric;
  poi_totalPrice : Numeric
}.

Record InsertPurchaseOrderItem := mkInsertPurchaseOrderItem {
  ipoi_orderId : Id;
  ipoi_productId : Id;
  ipoi_quantity : Numeric;
  ipoi_unitPrice : Numeric;
  ipoi_totalPrice : Numeric
}.

Record Tank := mkTank {
  tank_id : Id;
  tank_stationId : Id;
  tank_productId : Id;
  tank_capacity : Numeric;
  tank_currentStock : Numeric;
  tank_minimumLevel : Numeric
}.

Record Customer := mkCustomer {
  cust_id : Id;
  cust_name : string;
  cust_outstandingAmount : Numeric
}.

(** ** The store *)

Record DB := mkDB {
  salesTransactions : list SalesTransaction;
  salesTransactionItems : list SalesTransactionItem;
  purchaseOrders : list PurchaseOrder;
  purchaseOrderItems : list PurchaseOrderItem;
  tanks : list Tank;
  customers : list Customer
}.

Inductive Table :=
| T_salesTransactions
| T_salesTransactionItems
| T_purchaseOrders
| T_purchaseOrderItems
| T_tanks
| T_customers.

(** The statements a call sends to the store, in the order it sends them.
    [Delete t k] and [Update t k] carry the value their [where] compares
    with. *)
Inductive Stmt :=
| Insert (t : Table)
| Select (t : Table) (k : Id)
| Delete (t : Table) (k : Id)
| Update (t : Table) (k : Id).

(** What the store decides: the id a column default generates for the next
    row, and whether a table takes a row (keys, references, not-null and
    check constraints). *)
Record Schema := mkSchema {
  genId : DB -> Id;
  acceptsSale : DB -> SalesTransaction -> bool;
  acceptsSaleItem : DB -> SalesTransactionItem -> bool;
  acceptsOrder : DB -> PurchaseOrder -> bool;
  acceptsOrderItem : DB -> PurchaseOrderItem -> bool
}.

(** Modelled from the spec: the default of the [status] column of
    [purchaseOrders], declared in the absent [shared/schema.ts]; the
    spec has a purchase order start at [pending]. *)
Definition purchaseOrders_status_default : string := "pending".

(** ** Errors and the transaction monad *)

Inductive Err :=
| JsError (message : string)
| DbError (t : Table).

Inductive Result (A : Type) :=
| Ok (a : A)
| Fail (e : Err).
Arguments Ok {A} a.
Arguments Fail {A} e.

Definition isOk {A} (r : Result A) : bool :=
  match r with Ok _ => true | Fail _ => false end.

(** Inside [db.transaction(async (tx) => ...)]: the working copy of the
    store and the statements sent so far. *)
Record TxState := mkTxState {
  store : DB;
  issued : list Stmt
}.

Definition Tx (A : Type) := TxState -> Result A * TxState.

Definition ret {A} (a : A) : Tx A := fun s => (Ok a, s).

Definition bind {A B} (m : Tx A) (k : A -> Tx B) : Tx B :=
  fun s => match m s with
           | (Ok a, s') => k a s'
           | (Fail e, s') => (Fail e, s')
           end.

Definition throw {A} (e : Err) : Tx A := fun s => (Fail e, s).

Notation "x <- m ;; k" := (bind m (fun x => k))
  (at level 61, m at next level, right associativity).
Notation "m ;;; k" := (bind m (fun _ => k))
  (at level 61, right associativity).

Definition send (q : Stmt) : Tx unit :=
  fun s => (Ok tt, mkTxState (store s) (issued s ++ [q])).

Definition getStore : Tx DB := fun s => (Ok (store s), s).

Definition putStore (d : DB) : Tx unit :=
  fun s => (Ok tt, mkTxState d (issued s)).

(** [for (const x of xs) { await f(x) }] *)
Fixpoint forOf {A} (xs : list A) (f : A -> Tx unit) : Tx unit :=
  match xs with
  | [] => ret tt
  | x :: rest => f x ;;; forOf rest f
  end.

(** What a call leaves behind: its result (a rejected promise is [Fail]),
    the store afterwards and the statements it sent. *)
Record Outcome (A : Type) := mkOutcome {
  result : Result A;
  after : DB;
  statements : list Stmt
}.
Arguments mkOutcome {A}.
Arguments result {A}.
Arguments after {A}.
Arguments statements {A}.

(** [db.transaction(body)]: commit when [body] returns, roll back to the
    store as it was when [body] throws. *)
Definition transaction {A} (body : Tx A) (d : DB) : Outcome A :=
  match body (mkTxState d []) with
  | (Ok a, s) => mkOutcome (Ok a) (store s) (issued s)
  | (Fail e, s) => mkOutcome (Fail e) d (issued s)
  end.

(** A single statement outside any transaction (autocommit). *)
Definition autocommit {A} (q : Tx A) (d : DB) : Outcome A := transaction q d.

(** A JS value passed where an array is expected. *)
Inductive JsValue (A : Type) :=
| JsArray (elems : list A)
| JsOther.
Arguments JsArray {A} elems.
Arguments JsOther {A}.

(** [Array.isArray(v) ? v : []] *)
Definition arrayOrEmpty {A} (v : JsValue A) : list A :=
  match v with
  | JsArray l => l
  | JsOther => []
  end.

(** ** Row-level updates of the store *)

Definition withSalesTransactions (d : DB) (l : list SalesTransaction) : DB :=
  mkDB l (salesTransactionItems d) (purchaseOrders d) (purchaseOrderItems d)
       (tanks d) (customers d).

Definition withSalesTransactionItems (d : DB) (l : list SalesTransactionItem) : DB :=
  mkDB (salesTransactions d) l (purchaseOrders d) (purchaseOrderItems d)
       (tanks d) (customers d).

Definition withPurchaseOrders (d : DB) (l : list PurchaseOrder) : DB :=
  mkDB (salesTransactions d) (salesTransactionItems d) l (purchaseOrderItems d)
       (tanks d) (customers d).

Definition withPurchaseOrderItems (d : DB) (l : list PurchaseOrderItem) : DB :=
  mkDB (salesTransactions d) (salesTransactionItems d) (purchaseOrders d) l
       (tanks d) (customers d).

Definition withTanks (d : DB) (l : list Tank) : DB :=
  mkDB (salesTransactions d) (salesTransactionItems d) (purchaseOrders d)
       (purchaseOrderItems d) l (customers d).

Definition withCustomers (d : DB) (l : list Customer) : DB :=
  mkDB (salesTransactions d) (salesTransactionItems d) (purchaseOrders d)
       (purchaseOrderItems d) (tanks d) l.

(** [{ ...item, transactionId: id }] and [{ ...item, orderId: id }] *)
Definition withTransactionId (item : InsertSalesTransactionItem) (id : Id)
  : InsertSalesTransactionItem :=
  mkInsertSalesTransactionItem id (isti_productId item) (isti_quantity item)
    (isti_unitPrice item) (isti_totalPrice item).

Definition withOrderId (item : InsertPurchaseOrderItem) (id : Id)
  : InsertPurchaseOrderItem :=
  mkInsertPurchaseOrderItem id (ipoi_productId item) (ipoi_quantity item)
    (ipoi_unitPrice item) (ipoi_totalPrice item).

Section Storage.

Variable schema : Schema.

(** The row an insert stores: the given columns, the generated id, the
    column defaults where a value is missing. *)
Definition saleRow (d : DB) (v : InsertSalesTransaction) : SalesTransaction :=
  mkSalesTransaction (genId schema d) (ist_stationId v) (ist_customerId v)
    (ist_invoiceNumber v) (ist_paymentMethod v) (ist_totalAmount v)
    (ist_transactionDate v).

Definition saleItemRow (d : DB) (v : InsertSalesTransactionItem) : SalesTransactionItem :=
  mkSalesTransactionItem (genId schema d) (isti_transactionId v)
    (isti_productId v) (isti_quantity v) (isti_unitPrice v) (isti_totalPrice v).

Definition orderRow (d : DB) (v : InsertPurchaseOrder) : PurchaseOrder :=
  mkPurchaseOrder (genId schema d) (ipo_stationId v) (ipo_supplierId v)
    (ipo_orderNumber v)
    (match ipo_status v with
     | Some s => s
     | None => purchaseOrders_status_default
     end)
    (ipo_totalAmount v) (ipo_orderDate v).

Definition orderItemRow (d : DB) (v : InsertPurchaseOrderItem) : PurchaseOrderItem :=
  mkPurchaseOrderItem (genId schema d) (ipoi_orderId v)
    (ipoi_productId v) (ipoi_quantity v) (ipoi_unitPrice v) (ipoi_totalPrice v).

(** [tx.insert(salesTransactions).values(v).returning()] *)
Definition insertSalesTransaction (v : InsertSalesTransaction) : Tx SalesTransaction :=
  send (Insert T_salesTransactions) ;;;
  d <- getStore ;;
  let row := saleRow d v in
  if acceptsSale schema d row
  then putStore (withSalesTransactions d (salesTransactions d ++ [row])) ;;; ret row
  else throw (DbError T_salesTransactions).

(** [tx.insert(salesTransactionItems).values(v)] *)
Definition insertSalesTransactionItem (v : InsertSalesTransactionItem) : Tx unit :=
  send (Insert T_salesTransactionItems) ;;;
  d <- getStore ;;
  let row := saleItemRow d v in
  if acceptsSaleItem schema d row
  then putStore (withSalesTransactionItems d (salesTransactionItems d ++ [row]))
  else throw (DbError T_salesTransactionItems).

(** [tx.insert(purchaseOrders).values(v).returning()] *)
Definition insertPurchaseOrder (v : InsertPurchaseOrder) : Tx PurchaseOrder :=
  send (Insert T_purchaseOrders) ;;;
  d <- getStore ;;
  let row := orderRow d v in
  if acceptsOrder schema d row
  then putStore (withPurchaseOrders d (purchaseOrders d ++ [row])) ;;; ret row
  else throw (DbError T_purchaseOrders).

(** [tx.insert(purchaseOrderItems).values(v)] *)
Definition insertPurchaseOrderItem (v : InsertPurchaseOrderItem) : Tx unit :=
  send (Insert T_purchaseOrderItems) ;;;
  d <- getStore ;;
  let row := orderItemRow d v in
  if acceptsOrderItem schema d row
  then putStore (withPurchaseOrderItems d (purchaseOrderItems d ++ [row]))
  else throw (DbError T_purchaseOrderItems).

(** [createSalesTransaction(insertTransaction, items)] *)
Definition createSalesTransaction (insertTransaction : InsertSalesTransaction)
    (items : JsValue InsertSalesTransactionItem) : DB -> Outcome SalesTransaction :=
  transaction (
    transaction_ <- insertSalesTransaction insertTransaction ;;
    let itemsList := arrayOrEmpty items in
    forOf itemsList (fun item =>
      insertSalesTransactionItem (withTransactionId item (st_id transaction_))) ;;;
    ret transaction_).

(** [createPurchaseOrder(insertOrder, items)] *)
Definition createPurchaseOrder (insertOrder : InsertPurchaseOrder)
    (items : list InsertPurchaseOrderItem) : DB -> Outcome PurchaseOrder :=
  transaction (
    order <- insertPurchaseOrder insertOrder ;;
    forOf items (fun item =>
      insertPurchaseOrderItem (withOrderId item (po_id order))) ;;;
    ret order).

(** [tx.select().from(salesTransactions).where(and(eq(id), eq(stationId)))] *)
Definition selectSalesTransactionsOf (id stationId : Id) : Tx (list SalesTransaction) :=
  send (Select T_salesTransactions id) ;;;
  d <- getStore ;;
  ret (filter (fun r => String.eqb (st_id r) id && String.eqb (st_stationId r) stationId)
              (salesTransactions d)).

(** [tx.delete(salesTransactionItems).where(eq(transactionId, id))] *)
Definition deleteSalesTransactionItemsOf (id : Id) : Tx unit :=
  send (Delete T_salesTransactionItems id) ;;;
  d <- getStore ;;
  putStore (withSalesTransactionItems d
    (filter (fun r => negb (String.eqb (sti_transactionId r) id)) (salesTransactionItems d))).

(** [tx.delete(salesTransactions).where(eq(id, id))] *)
Definition deleteSalesTransactionRow (id : Id) : Tx unit :=
  send (Delete T_salesTransactions id) ;;;
  d <- getStore ;;
  putStore (withSalesTransactions d
    (filter (fun r => negb (String.eqb (st_id r) id)) (salesTransactions d))).

(** [deleteSalesTransactionSecure(id, stationId, role)]; [const [sale] = rows]
    takes the first row, [!sale] holds when there is none. *)
Definition deleteSalesTransactionSecure (id stationId : Id) (role : string)
  : DB -> Outcome unit :=
  transaction (
    (if negb (String.eqb role "admin")
     then
       rows <- selectSalesTransactionsOf id stationId ;;
       match hd_error rows with
       | None => throw (JsError "Unauthorized to delete this transaction")
       | Some _ => ret tt
       end
     else ret tt) ;;;
    deleteSalesTransactionItemsOf id ;;;
    deleteSalesTransactionRow id).

(** [tx.select().from(purchaseOrders).where(and(eq(id), eq(stationId)))] *)
Definition selectPurchaseOrdersOf (id stationId : Id) : Tx (list PurchaseOrder) :=
  send (Select T_purchaseOrders id) ;;;
  d <- getStore ;;
  ret (filter (fun r => String.eqb (po_id r) id && String.eqb (po_stationId r) stationId)
              (purchaseOrders d)).

(** [tx.delete(purchaseOrderItems).where(eq(orderId, id))] *)
Definition deletePurchaseOrderItemsOf (id : Id) : Tx unit :=
  send (Delete T_purchaseOrderItems id) ;;;
  d <- getStore ;;
  putStore (withPurchaseOrderItems d
    (filter (fun r => negb (String.eqb (poi_orderId r) id)) (purchaseOrderItems d))).

(** [tx.delete(purchaseOrders).where(eq(id, id))] *)
Definition deletePurchaseOrderRow (id : Id) : Tx unit :=
  send (Delete T_purchaseOrders id) ;;;
  d <- getStore ;;
  putStore (withPurchaseOrders d
    (filter (fun r => negb (String.eqb (po_id r) id)) (purchaseOrders d))).

(** [deletePurchaseOrderSecure(id, stationId, role)] *)
Definition deletePurchaseOrderSecure (id stationId : Id) (role : string)
  : DB -> Outcome unit :=
  transaction (
    (if negb (String.eqb role "admin")
     then
       rows <- selectPurchaseOrdersOf id stationId ;;
       match hd_error rows with
       | None => throw (JsError "Unauthorized to delete this order")
       | Some _ => ret tt
       end
     else ret tt) ;;;
    deletePurchaseOrderItemsOf id ;;;
    deletePurchaseOrderRow id).

End Storage.

(** ** Absolute-set updates *)

Definition setCurrentStock (quantity : Numeric) (t : Tank) : Tank :=
  mkTank (tank_id t) (tank_stationId t) (tank_productId t) (tank_capacity t)
         quantity (tank_minimumLevel t).

Definition setOutstandingAmount (amount : Numeric) (c : Customer) : Customer :=
  mkCustomer (cust_id c) (cust_name c) amount.

(** What the store decides when an [update] rewrites rows: whether the
    table takes a rewritten row (the type, precision and check constraints
    of its columns, which [shared/schema.ts] declares), and in which order
    it hands the rows of the table back afterwards.  An update that
    rewrites no row moves none. *)
Record Rewrites := mkRewrites {
  acceptsTank : DB -> Tank -> bool;
  acceptsCustomer : DB -> Customer -> bool;
  place : forall A : Type, list A -> list A -> list A;
  place_perm : forall A (kept written : list A),
      Permutation (kept ++ written) (place A kept written);
  place_nil : forall A (kept : list A), place A kept [] = kept
}.

Section Rewriting.

Variable rw : Rewrites.

(** [updateTankStock(id, quantity)]:
    [update(tanks).set({ currentStock: quantity }).where(eq(tanks.id, id)).returning()],
    of which the first returned row is handed back ([undefined] when no row
    matched).  The statement fails, and writes nothing, when the store
    refuses a rewritten row. *)
Definition updateTankStock (id : Id) (quantity : Numeric) : DB -> Outcome (option Tank) :=
  autocommit (
    send (Update T_tanks id) ;;;
    d <- getStore ;;
    let kept := filter (fun t => negb (String.eqb (tank_id t) id)) (tanks d) in
    let written := map (setCurrentStock quantity)
                       (filter (fun t => String.eqb (tank_id t) id) (tanks d)) in
    if forallb (acceptsTank rw d) written
    then putStore (withTanks d (place rw _ kept written)) ;;; ret (hd_error written)
    else throw (DbError T_tanks)).

(** [getTank(id)] *)
Definition getTank (id : Id) : DB -> Outcome (option Tank) :=
  autocommit (
    send (Select T_tanks id) ;;;
    d <- getStore ;;
    ret (hd_error (filter (fun t => String.eqb (tank_id t) id) (tanks d)))).


(** [updateCustomerBalance(id, amount)] *)
Definition updateCustomerBalance (id : Id) (amount : Numeric)
  : DB -> Outcome (option Customer) :=
  autocommit (
    send (Update T_customers id) ;;;
    d <- getStore ;;
    let kept := filter (fun c => negb (String.eqb (cust_id c) id)) (customers d) in
    let written := map (setOutstandingAmount amount)
                       (filter (fun c => String.eqb (cust_id c) id) (customers d)) in
    if forallb (acceptsCustomer rw d) written
    then putStore (withCustomers d (place rw _ kept written)) ;;; ret (hd_error written)
    else throw (DbError T_customers)).

End Rewriting.

(** ** Dashboard aggregates *)

Definition msPerDay : Z := 86400000.

(** SQL [sum]: [NULL] over no rows. *)
Definition sqlSum (l : list Numeric) : option Numeric :=
  match l with
  | [] => None
  | _ :: _ => Some (fold_right Z.add 0 l)
  end.

(** [v || "0"] on an aggregate that is a decimal string or [null]. *)
Definition orZero (v : option Numeric) : Numeric :=
  match v with
  | Some x => x
  | None => 0
  end.

Record SalesSummary := mkSalesSummary {
  totalAmount : Numeric;
  count : Z
}.

(** The part of the object [getDashboardStats] returns that the ledger
    properties are about ([monthlySales], [recentPOs], [weeklySales] and
    [productSales] are left out). *)
Record DashboardStats := mkDashboardStats {
  todaysSales : SalesSummary;
  outstanding_totalOutstanding : Numeric;
  payables_totalPayable : Numeric;
  counts_customers : Z
}.

Section Dashboard.

(** The server's local time is UTC plus [tzOffset] milliseconds (a zone
    without daylight-saving changes). *)
Variable tzOffset : Z.

(** [new Date(now.getFullYear(), now.getMonth(), now.getDate())]: local
    midnight of the day [now] falls on. *)
Definition startOfLocalDay (now : Timestamp) : Timestamp :=
  now - (now + tzOffset) mod msPerDay.

(** [getDashboardStats(stationId)], with [now] the value of [new Date()]. *)
Definition getDashboardStats (now : Timestamp) (stationId : Id) (d : DB) : DashboardStats :=
  let today := startOfLocalDay now in
  let todaysRows :=
    filter (fun r => String.eqb (st_stationId r) stationId
                     && (today <=? st_transactionDate r))
           (salesTransactions d) in
  let todaysSales_totalAmount := sqlSum (map st_totalAmount todaysRows) in
  let todaysSales_count := Z.of_nat (List.length todaysRows) in
  let outstanding := sqlSum (map cust_outstandingAmount (customers d)) in
  let customerCount := Z.of_nat (List.length (customers d)) in
  let payables :=
    sqlSum (map po_totalAmount
      (filter (fun r => String.eqb (po_status r) "pending") (purchaseOrders d))) in
  mkDashboardStats
    (mkSalesSummary (orZero todaysSales_totalAmount) todaysSales_count)
    (orZero outstanding)
    (orZero payables)
    customerCount.

End Dashboard.

(** ** Two requests updating one balance

    Modelled from the spec: the callers of [updateCustomerBalance]
    ([server/routes.ts] is absent).  A request that applies a delta reads
    the customer's balance, then writes the balance it read plus its delta;
    the store runs each statement on its own, so the statements of two
    requests may interleave in any order. *)


Section Racing.

Variable rw : Rewrites.






End Racing.


Definition balanceOf (id : Id) (d : DB) : option Numeric :=
  option_map cust_outstandingAmount
    (hd_error (filter (fun c => String.eqb (cust_id c) id) (customers d))).

(** ** What the properties speak of *)

Section Validity.

Variable schema : Schema.

(** Every line item is taken by [salesTransactionItems] at the moment the
    loop of [createSalesTransaction] inserts it. *)
Fixpoint saleItemsAccepted (tid : Id) (d : DB)
    (items : list InsertSalesTransactionItem) : bool :=
  match items with
  | [] => true
  | item :: rest =>
      let row := saleItemRow schema d (withTransactionId item tid) in
      acceptsSaleItem schema d row
      && saleItemsAccepted tid
           (withSalesTransactionItems d (salesTransactionItems d ++ [row])) rest
  end.

Fixpoint orderItemsAccepted (oid : Id) (d : DB)
    (items : list InsertPurchaseOrderItem) : bool :=
  match items with
  | [] => true
  | item :: rest =>
      let row := orderItemRow schema d (withOrderId item oid) in
      acceptsOrderItem schema d row
      && orderItemsAccepted oid
           (withPurchaseOrderItems d (purchaseOrderItems d ++ [row])) rest
  end.

End Validity.

(** The stored row [row] is the line item [item], attached to header [tid]. *)
Definition saleItemStoredAs (tid : Id) (item : InsertSalesTransactionItem)
    (row : SalesTransactionItem) : Prop :=
  sti_transactionId row = tid /\
  sti_productId row = isti_productId item /\
  sti_quantity row = isti_quantity item /\
  sti_unitPrice row = isti_unitPrice item /\
  sti_totalPrice row = isti_totalPrice item.

Definition orderItemStoredAs (oid : Id) (item : InsertPurchaseOrderItem)
    (row : PurchaseOrderItem) : Prop :=
  poi_orderId row = oid /\
  poi_productId row = ipoi_productId item /\
  poi_quantity row = ipoi_quantity item /\
  poi_unitPrice row = ipoi_unitPrice item /\
  poi_totalPrice row = ipoi_totalPrice item.

(** Two stores agree outside the sales tables / outside the purchase tables. *)
Definition sameOutsideSales (d d' : DB) : Prop :=
  purchaseOrders d' = purchaseOrders d /\
  purchaseOrderItems d' = purchaseOrderItems d /\
  tanks d' = tanks d /\
  customers d' = customers d.

Definition sameOutsidePurchases (d d' : DB) : Prop :=
  salesTransactions d' = salesTransactions d /\
  salesTransactionItems d' = salesTransactionItems d /\
  tanks d' = tanks d /\
  customers d' = customers d.

Definition total (l : list Numeric) : Numeric := fold_right Z.add 0 l.

(** The calendar day, in server-local time, a timestamp falls on. *)
Definition localDay (tzOffset : Z) (t : Timestamp) : Z := (t + tzOffset) / msPerDay.

(** Today's sales as the specification words them: the station's
    transactions dated on the current calendar day. *)
Definition salesOfCurrentDay (tzOffset : Z) (now : Timestamp) (stationId : Id)
    (d : DB) : list SalesTransaction :=
  filter (fun r => String.eqb (st_stationId r) stationId
                   && (localDay tzOffset (st_transactionDate r) =? localDay tzOffset now))
         (salesTransactions d).

(** The station's transactions dated on the current calendar day or on a
    later one. *)
Definition salesFromCurrentDayOn (tzOffset : Z) (now : Timestamp) (stationId : Id)
    (d : DB) : list SalesTransaction :=
  filter (fun r => String.eqb (st_stationId r) stationId
                   && (localDay tzOffset now <=? localDay tzOffset (st_transactionDate r)))
         (salesTransactions d).

(** Payables as the specification words them: the pending purchase orders
    of one station. *)
Definition pendingOrdersOfStation (stationId : Id) (d : DB) : list PurchaseOrder :=
  filter (fun r => String.eqb (po_stationId r) stationId
                   && String.eqb (po_status r) "pending")
         (purchaseOrders d).







(** The store once the sale (the order) [id] and its items are deleted. *)
Definition withoutSale (id : Id) (d : DB) : DB :=
  withSalesTransactions
    (withSalesTransactionItems d
       (filter (fun r => negb (String.eqb (sti_transactionId r) id))
               (salesTransactionItems d)))
    (filter (fun r => negb (String.eqb (st_id r) id)) (salesTransactions d)).

Definition withoutOrder (id : Id) (d : DB) : DB :=
  withPurchaseOrders
    (withPurchaseOrderItems d
       (filter (fun r => negb (String.eqb (poi_orderId r) id))
               (purchaseOrderItems d)))
    (filter (fun r => negb (String.eqb (po_id r) id)) (purchaseOrders d)).

(** ** A small store to run the operations on *)

Module Demo.

Fixpoint tally (n : nat) : string :=
  match n with
  | O => ""
  | S k => ("i" ++ tally k)%string
  end.

Definition rowCount (d : DB) : nat :=
  (List.length (salesTransactions d) + List.length (salesTransactionItems d)
   + List.length (purchaseOrders d) + List.length (purchaseOrderItems d))%nat.

(** Ids count the rows stored so far; line items need a positive quantity. *)
Definition schema : Schema :=
  mkSchema (fun d => ("id-" ++ tally (rowCount d))%string)
           (fun _ _ => true)
           (fun _ r => 0 <? sti_quantity r)
           (fun _ _ => true)
           (fun _ r => 0 <? poi_quantity r).

Definition empty : DB := mkDB [] [] [] [] [] [].

Definition cashSale : InsertSalesTransaction :=
  mkInsertSalesTransaction "station-1" None "INV-001" "cash" 75000 1000.

Definition petrol : InsertSalesTransactionItem :=
  mkInsertSalesTransactionItem "" "petrol" 200 25000 50000.

Definition diesel : InsertSalesTransactionItem :=
  mkInsertSalesTransactionItem "" "diesel" 100 25000 25000.

Definition badItem : InsertSalesTransactionItem :=
  mkInsertSalesTransactionItem "" "diesel" 0 25000 0.

Definition order (status : option string) : InsertPurchaseOrder :=
  mkInsertPurchaseOrder "station-1" "supplier-1" "PO00000001" status 500000 1000.

Definition orderLine : InsertPurchaseOrderItem :=
  mkInsertPurchaseOrderItem "" "petrol" 2000 250 500000.

(** One sale of station-1 with two lines, one purchase order of station-2. *)
Definition ledger : DB :=
  mkDB [mkSalesTransaction "sale-1" "station-1" None "INV-001" "cash" 75000 1000]
       [mkSalesTransactionItem "line-1" "sale-1" "petrol" 200 25000 50000;
        mkSalesTransactionItem "line-2" "sale-1" "diesel" 100 25000 25000]
       [mkPurchaseOrder "po-1" "station-2" "supplier-1" "PO00000001" "pending" 500000 1000]
       [mkPurchaseOrderItem "pl-1" "po-1" "petrol" 2000 250 500000]
       [mkTank "tank-1" "station-1" "petrol" 1000000 750000 100000]
       [mkCustomer "cust-1" "Acme Haulage" 1000].

(** Pending orders of two stations and one delivered order. *)
Definition twoStations : DB :=
  mkDB [] [] 
       [mkPurchaseOrder "po-1" "station-1" "supplier-1" "PO00000001" "pending" 10000 1000;
        mkPurchaseOrder "po-2" "station-2" "supplier-1" "PO00000002" "pending" 50000 1000;
        mkPurchaseOrder "po-3" "station-1" "supplier-1" "PO00000003" "delivered" 7000 1000]
       [] [] [].

(** Sales of station-1 dated yesterday, today and tomorrow, for a clock that
    reads noon of day 10 (UTC). *)
Definition noon : Timestamp := 10 * msPerDay + 43200000.

Definition threeDays : DB :=
  mkDB [mkSalesTransaction "sale-1" "station-1" None "INV-001" "cash" 100 (noon - msPerDay);
        mkSalesTransaction "sale-2" "station-1" None "INV-002" "cash" 20 noon;
        mkSalesTransaction "sale-3" "station-1" None "INV-003" "cash" 3 (noon + msPerDay)]
       [] [] [] [] [].

End Demo.

(** Two stores for the rewritten rows.  [bounded] has [numeric(10,2)]
    columns, which hold less than 10^8 units in absolute value, and hands
    a rewritten row back after the rows it kept; [lenient] differs in
    taking every amount. *)
Module DemoRewrites.

Definition fits (v : Numeric) : bool := Z.abs v <? 10000000000.

Definition bounded : Rewrites :=
  mkRewrites (fun _ t => fits (tank_currentStock t))
             (fun _ c => fits (cust_outstandingAmount c))
             (fun A kept written => kept ++ written)
             (fun A kept written => Permutation_refl (kept ++ written))
             (fun A kept => app_nil_r kept).


(** A station with a petrol tank and a diesel tank. *)
Definition twoTanks : DB :=
  mkDB [] [] [] []
       [mkTank "tank-1" "station-1" "petrol" 1000000 750000 100000;
        mkTank "tank-2" "station-1" "diesel" 1500000 1200000 100000]
       [].

End DemoRewrites.

(** ** Further operations of [DatabaseStorage] *)

From Stdlib Require Import Permutation Sorted.

(** [getSalesTransaction(id)]: the first row with that id, [undefined]
    when there is none. *)
Definition getSalesTransaction (id : Id) : DB -> Outcome (option SalesTransaction) :=
  autocommit (
    send (Select T_salesTransactions id) ;;;
    d <- getStore ;;
    ret (hd_error (filter (fun r => String.eqb (st_id r) id) (salesTransactions d)))).

(** [getSalesTransactionItems(transactionId)] *)
Definition getSalesTransactionItems (transactionId : Id)
  : DB -> Outcome (list SalesTransactionItem) :=
  autocommit (
    send (Select T_salesTransactionItems transactionId) ;;;
    d <- getStore ;;
    ret (filter (fun r => String.eqb (sti_transactionId r) transactionId)
                (salesTransactionItems d))).



(** [getTanks(stationId)] and [getTanksByStation(stationId)], which calls it. *)
Definition getTanks (stationId : Id) : DB -> Outcome (list Tank) :=
  autocommit (
    send (Select T_tanks stationId) ;;;
    d <- getStore ;;
    ret (filter (fun t => String.eqb (tank_stationId t) stationId) (tanks d))).

Definition getTanksByStation (stationId : Id) : DB -> Outcome (list Tank) :=
  getTanks stationId.

Section MoreStorage.

Variable schema : Schema.

(** [createSalesTransactionItem(item)]:
    [db.insert(salesTransactionItems).values(item).returning()], the item
    as it is given, outside any transaction. *)
Definition createSalesTransactionItem (item : InsertSalesTransactionItem)
  : DB -> Outcome SalesTransactionItem :=
  autocommit (
    send (Insert T_salesTransactionItems) ;;;
    d <- getStore ;;
    let row := saleItemRow schema d item in
    if acceptsSaleItem schema d row
    then putStore (withSalesTransactionItems d (salesTransactionItems d ++ [row])) ;;; ret row
    else throw (DbError T_salesTransactionItems)).

(** The line items of a sale stored by single calls, one after the other. *)
Definition singleInserts (tid : Id) (items : list InsertSalesTransactionItem) (d : DB) : DB :=
  fold_left (fun d' item =>
               after (createSalesTransactionItem (withTransactionId item tid) d'))
            items d.

End MoreStorage.

(** What [orderBy(desc(column))] has the store do: hand the rows back in
    descending order of the column.  Which of two rows with equal values
    comes first is the store's choice. *)
Record OrderBy := mkOrderBy {
  sortDesc : forall A : Type, (A -> Timestamp) -> list A -> list A;
  sortDesc_perm : forall A (key : A -> Timestamp) (l : list A),
      Permutation l (sortDesc A key l);
  sortDesc_sorted : forall A (key : A -> Timestamp) (l : list A),
      StronglySorted (fun a b => key b <= key a) (sortDesc A key l)
}.

Section Ordered.

Variable ob : OrderBy.

(** [getSalesTransactions(stationId, limit)]: [if (limit)] skips the
    [.limit] for [undefined] and for [0]. *)
Definition getSalesTransactions (stationId : Id) (limit : option N)
  : DB -> Outcome (list SalesTransaction) :=
  autocommit (
    send (Select T_salesTransactions stationId) ;;;
    d <- getStore ;;
    let query :=
      sortDesc ob _ st_transactionDate
        (filter (fun r => String.eqb (st_stationId r) stationId) (salesTransactions d)) in
    ret (match limit with
         | Some n => if (n =? 0)%N then query else firstn (N.to_nat n) query
         | None => query
         end)).

(** [getPurchaseOrders(stationId)] *)
Definition getPurchaseOrders (stationId : Id) : DB -> Outcome (list PurchaseOrder) :=
  autocommit (
    send (Select T_purchaseOrders stationId) ;;;
    d <- getStore ;;
    ret (sortDesc ob _ po_orderDate
           (filter (fun r => String.eqb (po_stationId r) stationId) (purchaseOrders d)))).

(** The [recentPOs] of [getDashboardStats]:
    [select().from(purchaseOrders).orderBy(desc(orderDate)).limit(5)]. *)
Definition recentPOs (d : DB) : list PurchaseOrder :=
  firstn 5 (sortDesc ob _ po_orderDate (purchaseOrders d)).

End Ordered.

(** Every line item belongs to a stored header. *)
Definition itemsReferenceSales (d : DB) : Prop :=
  forall item, In item (salesTransactionItems d) ->
    exists sale, In sale (salesTransactions d) /\ st_id sale = sti_transactionId item.

Definition itemsReferenceOrders (d : DB) : Prop :=
  forall item, In item (purchaseOrderItems d) ->
    exists order, In order (purchaseOrders d) /\ po_id order = poi_orderId item.

(** The most recent first, by insertion: a store that keeps rows of equal
    date in the order it holds them. *)
Module DemoOrder.

Fixpoint insertDesc {A} (key : A -> Timestamp) (x : A) (l : list A) : list A :=
  match l with
  | [] => [x]
  | y :: rest => if key y <=? key x then x :: l else y :: insertDesc key x rest
  end.

Fixpoint sort {A} (key : A -> Timestamp) (l : list A) : list A :=
  match l with
  | [] => []
  | x :: rest => insertDesc key x (sort key rest)
  end.

Definition orderBy : OrderBy.
Proof.
  assert (Hins : forall A (key : A -> Timestamp) (x : A) (l : list A),
             Permutation (x :: l) (insertDesc key x l)).
  { intros A key x l. induction l as [| y rest IH]; simpl.
    - apply Permutation_refl.
    - destruct (key y <=? key x).
      + apply Permutation_refl.
      + apply perm_trans with (y :: x :: rest); [apply perm_swap |].
        apply perm_skip. exact IH. }
  refine (mkOrderBy (fun A key l => sort key l) _ _).
  - intros A key l. induction l as [| x rest IH]; simpl.
    + apply perm_nil.
    + apply perm_trans with (x :: sort key rest); [apply perm_skip; exact IH |].
      apply Hins.
  - intros A key l. induction l as [| x rest IH]; simpl.
    + constructor.
    + revert IH. generalize (sort key rest). intros l' Hl'.
      induction Hl' as [| y l'' Hsorted IH' Hall]; simpl.
      * constructor; constructor.
      * destruct (key y <=? key x) eqn:E.
        -- apply Z.leb_le in E. constructor.
           ++ constructor; assumption.
           ++ constructor; [exact E |].
              eapply Forall_impl; [| exact Hall]. simpl. intros z Hz. lia.
        -- apply Z.leb_gt in E. constructor; [exact IH' |].
           apply (Permutation_Forall (Hins A key x l'')).
           constructor; [lia | exact Hall].
Defined.

End DemoOrder.

(** ** The route guard of the client ([AuthGuard]) *)
Module AuthGuard.

(** [roleAccess] as the guard declares it. *)
Definition roleAccess : list (string * list string) :=
  [("admin", ["*"]);
   ("manager", ["/"; "/profile"; "/pos"; "/sales-history"; "/customers"; "/stock";
                "/purchase-orders"; "/accounts-receivable"; "/accounts-payable";
                "/cash-reconciliation"; "/expenses"; "/suppliers"; "/pricing";
                "/financial-reports"; "/tanks"; "/pumps"; "/daily-reports";
                "/aging-reports"; "/general-ledger"; "/customer-activity"; "/settings"]);
   ("cashier", ["/"; "/profile"; "/pos"; "/sales-history"; "/customers"])].

(** The names every object literal inherits from [Object.prototype]: a
    lookup of one of them on [roleAccess] finds a function (the prototype
    itself for [__proto__]), which is truthy and no array. *)
Definition inherited : list string :=
  ["constructor"; "toString"; "toLocaleString"; "valueOf"; "hasOwnProperty";
   "isPrototypeOf"; "propertyIsEnumerable"; "__proto__"; "__defineGetter__";
   "__defineSetter__"; "__lookupGetter__"; "__lookupSetter__"].

(** [roleAccess[user.role] || []]: the routes of a declared role, a value
    that is no array for an inherited name, the empty array for every
    other name. *)
Definition allowedRoutes (role : string) : JsValue string :=
  match find (fun entry => String.eqb (fst entry) role) roleAccess with
  | Some entry => JsArray (snd entry)
  | None => if existsb (String.eqb role) inherited then JsOther else JsArray []
  end.

(** [routes.includes(x)] *)
Definition includes (routes : list string) (x : string) : bool :=
  existsb (String.eqb x) routes.

(** [isAllowed], for an array of allowed routes. *)
Definition allowedBy (allowedRoutes : list string) (location : string) : bool :=
  includes allowedRoutes "*"
  || includes allowedRoutes location
  || existsb (fun route => String.prefix route location && negb (String.eqb route "/"))
             allowedRoutes.

(** [isAllowed] in the effect of the guard; [allowedRoutes.includes] on a
    value that is no array throws a [TypeError]. *)
Definition isAllowed (role location : string) : Result bool :=
  match allowedRoutes role with
  | JsArray routes => Ok (allowedBy routes location)
  | JsOther => Fail (JsError "allowedRoutes.includes is not a function")
  end.

(** Whether the effect of the guard sends a signed-in user of that role,
    at that location, to ["/"]. *)
Definition redirectsHome (role location : string) : Result bool :=
  match isAllowed role location with
  | Ok allowed =>
      Ok (negb allowed
          && negb (String.eqb location "/")
          && negb (String.eqb location "/profile")
          && negb (String.eqb location "/login")
          && negb (String.eqb location "/signup"))
  | Fail e => Fail e
  end.

End AuthGuard.

(** ** The line-item rows of the purchase-order form *)
Module OrderForm.

Record OrderItemInput := mkOrderItemInput {
  oi_productId : string;
  oi_quantity : string;
  oi_unitPrice : string
}.

(** [addOrderItem()] *)
Definition addOrderItem (orderItems : list OrderItemInput) : list OrderItemInput :=
  orderItems ++ [mkOrderItemInput "" "" ""].

(** [xs.filter((x, i) => keep(x, i))], counting from [i]. *)
Fixpoint filterIndexed {A} (keep : A -> nat -> bool) (i : nat) (xs : list A) : list A :=
  match xs with
  | [] => []
  | x :: rest =>
      if keep x i then x :: filterIndexed keep (S i) rest
      else filterIndexed keep (S i) rest
  end.

(** [removeOrderItem(index)] *)
Definition removeOrderItem (index : nat) (orderItems : list OrderItemInput)
  : list OrderItemInput :=
  if (1 <? List.length orderItems)%nat
  then filterIndexed (fun _ i => negb (i =? index)%nat) 0 orderItems
  else orderItems.

(** What the user does to the rows of the form. *)
Inductive Edit :=
| AddRow
| RemoveRow (index : nat).

Definition applyEdit (orderItems : list OrderItemInput) (e : Edit) : list OrderItemInput :=
  match e with
  | AddRow => addOrderItem orderItems
  | RemoveRow index => removeOrderItem index orderItems
  end.

End OrderForm.

(** Two stores hold the same rows, the tanks in whatever order. *)
Definition sameUpToTankOrder (a b : DB) : Prop :=
  Permutation (tanks a) (tanks b) /\
  salesTransactions a = salesTransactions b /\
  salesTransactionItems a = salesTransactionItems b /\
  purchaseOrders a = purchaseOrders b /\
  purchaseOrderItems a = purchaseOrderItems b /\
  customers a = customers b.

(** * Properties *)

(** ** Generic facts *)

Lemma withSalesTransactionItems_same (d : DB) :
  withSalesTransactionItems d (salesTransactionItems d) = d.
Proof. destruct d; reflexivity. Qed.

Lemma withPurchaseOrderItems_same (d : DB) :
  withPurchaseOrderItems d (purchaseOrderItems d) = d.
Proof. destruct d; reflexivity. Qed.

Lemma transaction_rolls_back {A} (body : Tx A) (d : DB) (e : Err) :
  result (transaction body d) = Fail e -> after (transaction body d) = d.
Proof.
  unfold transaction. destruct (body (mkTxState d [])) as [[a | e'] s]; simpl.
  - discriminate.
  - reflexivity.
Qed.

Lemma filter_all {A} (p : A -> bool) (l : list A) :
  (forall x, In x l -> p x = true) -> filter p l = l.
Proof.
  induction l as [| x l IH]; intros H; simpl.
  - reflexivity.
  - rewrite (H x (or_introl eq_refl)). f_equal. apply IH.
    intros y Hy. apply H. right. exact Hy.
Qed.

Lemma filter_none {A} (p : A -> bool) (l : list A) :
  (forall x, In x l -> p x = false) -> filter p l = [].
Proof.
  induction l as [| x l IH]; intros H; simpl.
  - reflexivity.
  - rewrite (H x (or_introl eq_refl)). apply IH.
    intros y Hy. apply H. right. exact Hy.
Qed.

Lemma orZero_sqlSum (l : list Numeric) : orZero (sqlSum l) = total l.
Proof. destruct l; reflexivity. Qed.

Lemma forOf_cons {A} (x : A) (rest : list A) (f : A -> Tx unit) (s : TxState) :
  forOf (x :: rest) f s =
  match f x s with
  | (Ok _, s') => forOf rest f s'
  | (Fail e, s') => (Fail e, s')
  end.
Proof. reflexivity. Qed.

Section StorageProperties.

Variable schema : Schema.

(** ** Single statements *)

Lemma insertSalesTransaction_run (v : InsertSalesTransaction) (s : TxState) :
  insertSalesTransaction schema v s =
  let row := saleRow schema (store s) v in
  let q := issued s ++ [Insert T_salesTransactions] in
  if acceptsSale schema (store s) row
  then (Ok row,
        mkTxState (withSalesTransactions (store s) (salesTransactions (store s) ++ [row])) q)
  else (Fail (DbError T_salesTransactions), mkTxState (store s) q).
Proof.
  unfold insertSalesTransaction, bind, send, getStore, putStore, throw, ret. simpl.
  destruct (acceptsSale schema (store s) (saleRow schema (store s) v)); reflexivity.
Qed.

Lemma insertSalesTransactionItem_run (v : InsertSalesTransactionItem) (s : TxState) :
  insertSalesTransactionItem schema v s =
  let row := saleItemRow schema (store s) v in
  let q := issued s ++ [Insert T_salesTransactionItems] in
  if acceptsSaleItem schema (store s) row
  then (Ok tt,
        mkTxState (withSalesTransactionItems (store s)
                     (salesTransactionItems (store s) ++ [row])) q)
  else (Fail (DbError T_salesTransactionItems), mkTxState (store s) q).
Proof.
  unfold insertSalesTransactionItem, bind, send, getStore, putStore, throw. simpl.
  destruct (acceptsSaleItem schema (store s) (saleItemRow schema (store s) v)); reflexivity.
Qed.

Lemma insertPurchaseOrder_run (v : InsertPurchaseOrder) (s : TxState) :
  insertPurchaseOrder schema v s =
  let row := orderRow schema (store s) v in
  let q := issued s ++ [Insert T_purchaseOrders] in
  if acceptsOrder schema (store s) row
  then (Ok row,
        mkTxState (withPurchaseOrders (store s) (purchaseOrders (store s) ++ [row])) q)
  else (Fail (DbError T_purchaseOrders), mkTxState (store s) q).
Proof.
  unfold insertPurchaseOrder, bind, send, getStore, putStore, throw, ret. simpl.
  destruct (acceptsOrder schema (store s) (orderRow schema (store s) v)); reflexivity.
Qed.

Lemma insertPurchaseOrderItem_run (v : InsertPurchaseOrderItem) (s : TxState) :
  insertPurchaseOrderItem schema v s =
  let row := orderItemRow schema (store s) v in
  let q := issued s ++ [Insert T_purchaseOrderItems] in
  if acceptsOrderItem schema (store s) row
  then (Ok tt,
        mkTxState (withPurchaseOrderItems (store s)
                     (purchaseOrderItems (store s) ++ [row])) q)
  else (Fail (DbError T_purchaseOrderItems), mkTxState (store s) q).
Proof.
  unfold insertPurchaseOrderItem, bind, send, getStore, putStore, throw. simpl.
  destruct (acceptsOrderItem schema (store s) (orderItemRow schema (store s) v)); reflexivity.
Qed.

(** ** The line-item loops *)

Lemma forOf_saleItems_accepted (tid : Id) (items : list InsertSalesTransactionItem) :
  forall s : TxState,
    saleItemsAccepted schema tid (store s) items = true ->
    exists rows,
      forOf items (fun item =>
        insertSalesTransactionItem schema (withTransactionId item tid)) s
      = (Ok tt,
         mkTxState
           (withSalesTransactionItems (store s) (salesTransactionItems (store s) ++ rows))
           (issued s ++ repeat (Insert T_salesTransactionItems) (List.length items)))
      /\ Forall2 (saleItemStoredAs tid) items rows.
Proof.
  induction items as [| item rest IH]; intros [d q] Hacc.
  - exists []. split.
    + simpl. unfold ret. now rewrite !app_nil_r, withSalesTransactionItems_same.
    + constructor.
  - simpl in Hacc. apply andb_prop in Hacc. destruct Hacc as [Hrow Hrest].
    set (row := saleItemRow schema d (withTransactionId item tid)) in *.
    destruct (IH (mkTxState
                    (withSalesTransactionItems d (salesTransactionItems d ++ [row]))
                    (q ++ [Insert T_salesTransactionItems])) Hrest)
      as (rows & Hrun & Hrows).
    exists (row :: rows). split.
    + rewrite forOf_cons, insertSalesTransactionItem_run. simpl store. simpl issued.
      fold row. cbv zeta. rewrite Hrow, Hrun. simpl. now rewrite <- !app_assoc.
    + constructor; [| exact Hrows].
      unfold saleItemStoredAs, row. simpl. auto.
Qed.

Lemma forOf_saleItems_rejected (tid : Id) (items : list InsertSalesTransactionItem) :
  forall s : TxState,
    saleItemsAccepted schema tid (store s) items = false ->
    fst (forOf items (fun item =>
           insertSalesTransactionItem schema (withTransactionId item tid)) s)
    = Fail (DbError T_salesTransactionItems).
Proof.
  induction items as [| item rest IH]; intros [d q] Hrej.
  - discriminate.
  - simpl in Hrej.
    rewrite forOf_cons, insertSalesTransactionItem_run. simpl store. simpl issued.
    cbv zeta.
    destruct (acceptsSaleItem schema d (saleItemRow schema d (withTransactionId item tid)))
      eqn:Hrow; simpl in Hrej.
    + apply (IH (mkTxState _ _)). exact Hrej.
    + reflexivity.
Qed.

Lemma forOf_orderItems_accepted (oid : Id) (items : list InsertPurchaseOrderItem) :
  forall s : TxState,
    orderItemsAccepted schema oid (store s) items = true ->
    exists rows,
      forOf items (fun item =>
        insertPurchaseOrderItem schema (withOrderId item oid)) s
      = (Ok tt,
         mkTxState
           (withPurchaseOrderItems (store s) (purchaseOrderItems (store s) ++ rows))
           (issued s ++ repeat (Insert T_purchaseOrderItems) (List.length items)))
      /\ Forall2 (orderItemStoredAs oid) items rows.
Proof.
  induction items as [| item rest IH]; intros [d q] Hacc.
  - exists []. split.
    + simpl. unfold ret. now rewrite !app_nil_r, withPurchaseOrderItems_same.
    + constructor.
  - simpl in Hacc. apply andb_prop in Hacc. destruct Hacc as [Hrow Hrest].
    set (row := orderItemRow schema d (withOrderId item oid)) in *.
    destruct (IH (mkTxState
                    (withPurchaseOrderItems d (purchaseOrderItems d ++ [row]))
                    (q ++ [Insert T_purchaseOrderItems])) Hrest)
      as (rows & Hrun & Hrows).
    exists (row :: rows). split.
    + rewrite forOf_cons, insertPurchaseOrderItem_run. simpl store. simpl issued.
      fold row. cbv zeta. rewrite Hrow, Hrun. simpl. now rewrite <- !app_assoc.
    + constructor; [| exact Hrows].
      unfold orderItemStoredAs, row. simpl. auto.
Qed.

Lemma forOf_orderItems_rejected (oid : Id) (items : list InsertPurchaseOrderItem) :
  forall s : TxState,
    orderItemsAccepted schema oid (store s) items = false ->
    fst (forOf items (fun item =>
           insertPurchaseOrderItem schema (withOrderId item oid)) s)
    = Fail (DbError T_purchaseOrderItems).
Proof.
  induction items as [| item rest IH]; intros [d q] Hrej.
  - discriminate.
  - simpl in Hrej.
    rewrite forOf_cons, insertPurchaseOrderItem_run. simpl store. simpl issued.
    cbv zeta.
    destruct (acceptsOrderItem schema d (orderItemRow schema d (withOrderId item oid)))
      eqn:Hrow; simpl in Hrej.
    + apply (IH (mkTxState _ _)). exact Hrej.
    + reflexivity.
Qed.

(** ** Creating a sale *)

Lemma createSalesTransaction_committed
    (insertTransaction : InsertSalesTransaction)
    (items : JsValue InsertSalesTransactionItem) (d : DB) :
  let header := saleRow schema d insertTransaction in
  let d1 := withSalesTransactions d (salesTransactions d ++ [header]) in
  acceptsSale schema d header = true ->
  saleItemsAccepted schema (st_id header) d1 (arrayOrEmpty items) = true ->
  exists rows,
    createSalesTransaction schema insertTransaction items d
    = mkOutcome (Ok header)
        (withSalesTransactionItems d1 (salesTransactionItems d ++ rows))
        (Insert T_salesTransactions
           :: repeat (Insert T_salesTransactionItems) (List.length (arrayOrEmpty items)))
    /\ Forall2 (saleItemStoredAs (st_id header)) (arrayOrEmpty items) rows.
Proof.
  intros header d1 Hhdr Hitems.
  destruct (forOf_saleItems_accepted (st_id header) (arrayOrEmpty items)
              (mkTxState d1 [Insert T_salesTransactions]) Hitems)
    as (rows & Hrun & Hrows).
  exists rows. split; [| exact Hrows].
  cbn [store issued] in Hrun.
  unfold createSalesTransaction, transaction, bind.
  rewrite insertSalesTransaction_run. cbn [store issued app]. cbv zeta.
  fold header. rewrite Hhdr. fold d1. rewrite Hrun. reflexivity.
Qed.

Lemma createSalesTransaction_item_rejected
    (insertTransaction : InsertSalesTransaction)
    (items : JsValue InsertSalesTransactionItem) (d : DB) :
  let header := saleRow schema d insertTransaction in
  let d1 := withSalesTransactions d (salesTransactions d ++ [header]) in
  acceptsSale schema d header = true ->
  saleItemsAccepted schema (st_id header) d1 (arrayOrEmpty items) = false ->
  result (createSalesTransaction schema insertTransaction items d)
  = Fail (DbError T_salesTransactionItems).
Proof.
  intros header d1 Hhdr Hitems.
  pose proof (forOf_saleItems_rejected (st_id header) (arrayOrEmpty items)
                (mkTxState d1 [Insert T_salesTransactions]) Hitems) as Hrun.
  unfold createSalesTransaction, transaction, bind.
  rewrite insertSalesTransaction_run. cbn [store issued app]. cbv zeta.
  fold header. rewrite Hhdr. fold d1.
  destruct (forOf _ _ _) as [[u | e] s']; simpl in Hrun.
  - discriminate.
  - simpl. injection Hrun as ->. reflexivity.
Qed.

(** C1.  For a non-empty list of N line items that the store accepts, and
    a header it accepts, [createSalesTransaction] answers with the header
    row and leaves exactly that one new header row and N new item rows
    (the items, attached to the header) behind, every other table
    untouched; when an item insert is rejected the call fails and the
    store is as it was before the call: no header, no item row persists.
    Whatever the failure, nothing persists. *)
Theorem createSalesTransaction_atomic
    (insertTransaction : InsertSalesTransaction)
    (items : list InsertSalesTransactionItem) (d : DB) :
  items <> [] ->
  let out := createSalesTransaction schema insertTransaction (JsArray items) d in
  let header := saleRow schema d insertTransaction in
  let d1 := withSalesTransactions d (salesTransactions d ++ [header]) in
  (acceptsSale schema d header = true ->
   saleItemsAccepted schema (st_id header) d1 items = true ->
   result out = Ok header /\
   salesTransactions (after out) = salesTransactions d ++ [header] /\
   (exists rows,
      salesTransactionItems (after out) = salesTransactionItems d ++ rows /\
      List.length rows = List.length items /\
      Forall2 (saleItemStoredAs (st_id header)) items rows) /\
   sameOutsideSales d (after out)) /\
  (acceptsSale schema d header = true ->
   saleItemsAccepted schema (st_id header) d1 items = false ->
   result out = Fail (DbError T_salesTransactionItems) /\ after out = d) /\
  (forall e, result out = Fail e -> after out = d).
Proof.
  intros _ out header d1. split; [| split].
  - intros Hhdr Hitems.
    destruct (createSalesTransaction_committed insertTransaction (JsArray items) d
                Hhdr Hitems) as (rows & Hrun & Hrows).
    unfold out. rewrite Hrun. cbn [result after].
    split; [reflexivity |]. split; [reflexivity |]. split.
    + exists rows. split; [reflexivity |]. split; [| exact Hrows].
      symmetry. exact (Forall2_length Hrows).
    + repeat split.
  - intros Hhdr Hitems.
    pose proof (createSalesTransaction_item_rejected insertTransaction (JsArray items) d
                  Hhdr Hitems) as Hfail.
    split; [exact Hfail |].
    exact (transaction_rolls_back _ d _ Hfail).
  - intros e He. exact (transaction_rolls_back _ d e He).
Qed.

(** C9.  [createSalesTransaction] does not check that there are items:
    given the empty array, or a value that is not an array (taken as the
    empty list), and a header the store accepts, the call succeeds, sends
    the one header insert and leaves the header row with no item row. *)
Theorem createSalesTransaction_without_items
    (insertTransaction : InsertSalesTransaction)
    (items : JsValue InsertSalesTransactionItem) (d : DB) :
  items = JsArray [] \/ items = JsOther ->
  acceptsSale schema d (saleRow schema d insertTransaction) = true ->
  let out := createSalesTransaction schema insertTransaction items d in
  let header := saleRow schema d insertTransaction in
  result out = Ok header /\
  salesTransactions (after out) = salesTransactions d ++ [header] /\
  salesTransactionItems (after out) = salesTransactionItems d /\
  sameOutsideSales d (after out) /\
  statements out = [Insert T_salesTransactions].
Proof.
  intros Hitems Hhdr out header.
  assert (Hnil : arrayOrEmpty items = []) by (destruct Hitems; subst; reflexivity).
  destruct (createSalesTransaction_committed insertTransaction items d Hhdr)
    as (rows & Hrun & Hrows).
  - rewrite Hnil. reflexivity.
  - rewrite Hnil in Hrun, Hrows. inversion Hrows; subst.
    unfold out. rewrite Hrun. cbn [result after statements].
    split; [reflexivity |]. split; [reflexivity |].
    split; [simpl; apply app_nil_r |]. repeat split.
Qed.

(** ** Creating a purchase order *)

Lemma createPurchaseOrder_committed
    (insertOrder : InsertPurchaseOrder)
    (items : list InsertPurchaseOrderItem) (d : DB) :
  let header := orderRow schema d insertOrder in
  let d1 := withPurchaseOrders d (purchaseOrders d ++ [header]) in
  acceptsOrder schema d header = true ->
  orderItemsAccepted schema (po_id header) d1 items = true ->
  exists rows,
    createPurchaseOrder schema insertOrder items d
    = mkOutcome (Ok header)
        (withPurchaseOrderItems d1 (purchaseOrderItems d ++ rows))
        (Insert T_purchaseOrders
           :: repeat (Insert T_purchaseOrderItems) (List.length items))
    /\ Forall2 (orderItemStoredAs (po_id header)) items rows.
Proof.
  intros header d1 Hhdr Hitems.
  destruct (forOf_orderItems_accepted (po_id header) items
              (mkTxState d1 [Insert T_purchaseOrders]) Hitems)
    as (rows & Hrun & Hrows).
  exists rows. split; [| exact Hrows].
  cbn [store issued] in Hrun.
  unfold createPurchaseOrder, transaction, bind.
  rewrite insertPurchaseOrder_run. cbn [store issued app]. cbv zeta.
  fold header. rewrite Hhdr. fold d1. rewrite Hrun. reflexivity.
Qed.

Lemma createPurchaseOrder_item_rejected
    (insertOrder : InsertPurchaseOrder)
    (items : list InsertPurchaseOrderItem) (d : DB) :
  let header := orderRow schema d insertOrder in
  let d1 := withPurchaseOrders d (purchaseOrders d ++ [header]) in
  acceptsOrder schema d header = true ->
  orderItemsAccepted schema (po_id header) d1 items = false ->
  result (createPurchaseOrder schema insertOrder items d)
  = Fail (DbError T_purchaseOrderItems).
Proof.
  intros header d1 Hhdr Hitems.
  pose proof (forOf_orderItems_rejected (po_id header) items
                (mkTxState d1 [Insert T_purchaseOrders]) Hitems) as Hrun.
  unfold createPurchaseOrder, transaction, bind.
  rewrite insertPurchaseOrder_run. cbn [store issued app]. cbv zeta.
  fold header. rewrite Hhdr. fold d1.
  destruct (forOf _ _ _) as [[u | e] s']; simpl in Hrun.
  - discriminate.
  - simpl. injection Hrun as ->. reflexivity.
Qed.

Lemma createPurchaseOrder_header_rejected
    (insertOrder : InsertPurchaseOrder)
    (items : list InsertPurchaseOrderItem) (d : DB) :
  acceptsOrder schema d (orderRow schema d insertOrder) = false ->
  result (createPurchaseOrder schema insertOrder items d)
  = Fail (DbError T_purchaseOrders).
Proof.
  intros Hhdr.
  unfold createPurchaseOrder, transaction, bind.
  rewrite insertPurchaseOrder_run. cbn [store issued app]. cbv zeta.
  rewrite Hhdr. reflexivity.
Qed.

(** C5, amended.  [createPurchaseOrder] stores the header and all its
    items in one transaction: when the store accepts them, exactly the
    header row and one row per item are added, and the status of the
    created order is the status the header carries, or [pending] when it
    carries none; when the header or an item is rejected the call fails;
    and whenever the call fails the store is as it was before. *)
Theorem createPurchaseOrder_atomic_status
    (insertOrder : InsertPurchaseOrder)
    (items : list InsertPurchaseOrderItem) (d : DB) :
  let out := createPurchaseOrder schema insertOrder items d in
  let header := orderRow schema d insertOrder in
  let d1 := withPurchaseOrders d (purchaseOrders d ++ [header]) in
  (acceptsOrder schema d header = true ->
   orderItemsAccepted schema (po_id header) d1 items = true ->
   result out = Ok header /\
   po_status header = match ipo_status insertOrder with
                      | Some status => status
                      | None => "pending"
                      end /\
   purchaseOrders (after out) = purchaseOrders d ++ [header] /\
   (exists rows,
      purchaseOrderItems (after out) = purchaseOrderItems d ++ rows /\
      List.length rows = List.length items /\
      Forall2 (orderItemStoredAs (po_id header)) items rows) /\
   sameOutsidePurchases d (after out)) /\
  (acceptsOrder schema d header = false ->
   result out = Fail (DbError T_purchaseOrders)) /\
  (acceptsOrder schema d header = true ->
   orderItemsAccepted schema (po_id header) d1 items = false ->
   result out = Fail (DbError T_purchaseOrderItems)) /\
  (forall e, result out = Fail e -> after out = d).
Proof.
  intros out header d1. split; [| split; [| split]].
  - intros Hhdr Hitems.
    destruct (createPurchaseOrder_committed insertOrder items d Hhdr Hitems)
      as (rows & Hrun & Hrows).
    unfold out. rewrite Hrun. cbn [result after].
    split; [reflexivity |]. split; [reflexivity |]. split; [reflexivity |]. split.
    + exists rows. split; [reflexivity |]. split; [| exact Hrows].
      symmetry. exact (Forall2_length Hrows).
    + repeat split.
  - intros Hhdr. exact (createPurchaseOrder_header_rejected insertOrder items d Hhdr).
  - intros Hhdr Hitems.
    exact (createPurchaseOrder_item_rejected insertOrder items d Hhdr Hitems).
  - intros e He. exact (transaction_rolls_back _ d e He).
Qed.

End StorageProperties.

(** ** Deleting a sale or a purchase order *)

Lemma deleteSalesTransactionSecure_run (id stationId : Id) (role : string) (d : DB) :
  deleteSalesTransactionSecure id stationId role d =
  let deletes := [Delete T_salesTransactionItems id; Delete T_salesTransactions id] in
  if String.eqb role "admin"
  then mkOutcome (Ok tt) (withoutSale id d) deletes
  else
    match filter (fun r => String.eqb (st_id r) id && String.eqb (st_stationId r) stationId)
                 (salesTransactions d) with
    | [] => mkOutcome (Fail (JsError "Unauthorized to delete this transaction")) d
                      [Select T_salesTransactions id]
    | _ :: _ => mkOutcome (Ok tt) (withoutSale id d)
                          (Select T_salesTransactions id :: deletes)
    end.
Proof.
  unfold deleteSalesTransactionSecure, transaction, bind, selectSalesTransactionsOf,
    deleteSalesTransactionItemsOf, deleteSalesTransactionRow, send, getStore, putStore,
    throw, ret, bind.
  destruct (String.eqb role "admin"); cbn [negb store issued app].
  - reflexivity.
  - destruct (filter _ (salesTransactions d)); reflexivity.
Qed.

Lemma deletePurchaseOrderSecure_run (id stationId : Id) (role : string) (d : DB) :
  deletePurchaseOrderSecure id stationId role d =
  let deletes := [Delete T_purchaseOrderItems id; Delete T_purchaseOrders id] in
  if String.eqb role "admin"
  then mkOutcome (Ok tt) (withoutOrder id d) deletes
  else
    match filter (fun r => String.eqb (po_id r) id && String.eqb (po_stationId r) stationId)
                 (purchaseOrders d) with
    | [] => mkOutcome (Fail (JsError "Unauthorized to delete this order")) d
                      [Select T_purchaseOrders id]
    | _ :: _ => mkOutcome (Ok tt) (withoutOrder id d)
                          (Select T_purchaseOrders id :: deletes)
    end.
Proof.
  unfold deletePurchaseOrderSecure, transaction, bind, selectPurchaseOrdersOf,
    deletePurchaseOrderItemsOf, deletePurchaseOrderRow, send, getStore, putStore,
    throw, ret, bind.
  destruct (String.eqb role "admin"); cbn [negb store issued app].
  - reflexivity.
  - destruct (filter _ (purchaseOrders d)); reflexivity.
Qed.

Lemma not_admin (role : string) : role <> "admin" -> String.eqb role "admin" = false.
Proof. intros H. apply String.eqb_neq. exact H. Qed.

(** A key column identifies its row. *)
Lemma key_identifies {A} (key : A -> Id) (l : list A) (x y : A) :
  NoDup (map key l) -> In x l -> In y l -> key x = key y -> x = y.
Proof.
  induction l as [| z l IH]; intros Hnd Hx Hy Hk; simpl in *.
  - contradiction.
  - inversion Hnd as [| ? ? Hnotin Hnd']; subst.
    destruct Hx as [-> | Hx], Hy as [-> | Hy].
    + reflexivity.
    + exfalso. apply Hnotin. rewrite Hk. apply in_map. exact Hy.
    + exfalso. apply Hnotin. rewrite <- Hk. apply in_map. exact Hx.
    + apply IH; assumption.
Qed.

Lemma filter_nonempty {A} (p : A -> bool) (l : list A) (x : A) :
  In x l -> p x = true -> filter p l <> [].
Proof.
  intros Hin Hp Hnil.
  assert (In x (filter p l)) as Hx by (apply filter_In; split; assumption).
  rewrite Hnil in Hx. contradiction.
Qed.

(** C2.  A caller whose role is not [admin] and whose station differs
    from the station of the stored sale (the row its key [id] identifies)
    gets the authorization error from [deleteSalesTransactionSecure], and
    the store is left as it was: no header row, no item row changes.  The
    same holds of [deletePurchaseOrderSecure]. *)
Theorem deleteSecure_other_station_rejected
    (id callerStationId : Id) (callerRole : string) (d : DB) :
  callerRole <> "admin" ->
  (forall sale,
     NoDup (map st_id (salesTransactions d)) ->
     In sale (salesTransactions d) -> st_id sale = id ->
     st_stationId sale <> callerStationId ->
     let out := deleteSalesTransactionSecure id callerStationId callerRole d in
     result out = Fail (JsError "Unauthorized to delete this transaction") /\
     after out = d) /\
  (forall order,
     NoDup (map po_id (purchaseOrders d)) ->
     In order (purchaseOrders d) -> po_id order = id ->
     po_stationId order <> callerStationId ->
     let out := deletePurchaseOrderSecure id callerStationId callerRole d in
     result out = Fail (JsError "Unauthorized to delete this order") /\
     after out = d).
Proof.
  intros Hrole. split.
  - intros sale Hkey Hin Hid Hst out. unfold out.
    rewrite deleteSalesTransactionSecure_run, (not_admin _ Hrole). cbv zeta.
    rewrite filter_none; [split; reflexivity |].
    intros x Hx. apply andb_false_iff.
    destruct (String.eqb (st_id x) id) eqn:Hxid; [right | left; reflexivity].
    apply String.eqb_eq in Hxid.
    assert (x = sale) as -> by (apply (key_identifies st_id _ _ _ Hkey Hx Hin); congruence).
    apply String.eqb_neq. exact Hst.
  - intros order Hkey Hin Hid Hst out. unfold out.
    rewrite deletePurchaseOrderSecure_run, (not_admin _ Hrole). cbv zeta.
    rewrite filter_none; [split; reflexivity |].
    intros x Hx. apply andb_false_iff.
    destruct (String.eqb (po_id x) id) eqn:Hxid; [right | left; reflexivity].
    apply String.eqb_eq in Hxid.
    assert (x = order) as -> by (apply (key_identifies po_id _ _ _ Hkey Hx Hin); congruence).
    apply String.eqb_neq. exact Hst.
Qed.

(** C7.  For a stored sale and an authorized caller (an [admin], or a
    caller of the sale's own station) [deleteSalesTransactionSecure]
    succeeds; it deletes the item rows of the sale and then its header
    row, as the last two statements of its one transaction; afterwards
    the header rows are those with another id, the item rows those that
    reference another id (so none references the deleted header), and
    the other tables are untouched. *)
Theorem deleteSalesTransactionSecure_cascades
    (id stationId : Id) (role : string) (d : DB) (sale : SalesTransaction) :
  In sale (salesTransactions d) ->
  st_id sale = id ->
  role = "admin" \/ st_stationId sale = stationId ->
  let out := deleteSalesTransactionSecure id stationId role d in
  result out = Ok tt /\
  (exists before,
     statements out
     = before ++ [Delete T_salesTransactionItems id; Delete T_salesTransactions id]) /\
  (forall r, In r (salesTransactions (after out))
             <-> In r (salesTransactions d) /\ st_id r <> id) /\
  (forall r, In r (salesTransactionItems (after out))
             <-> In r (salesTransactionItems d) /\ sti_transactionId r <> id) /\
  ~ In sale (salesTransactions (after out)) /\
  (forall r, In r (salesTransactionItems (after out)) -> sti_transactionId r <> id) /\
  sameOutsideSales d (after out).
Proof.
  intros Hin Hid Hauth out.
  assert (Hhdr : forall r, In r (salesTransactions (withoutSale id d))
                           <-> In r (salesTransactions d) /\ st_id r <> id).
  { intros r. unfold withoutSale. simpl. rewrite filter_In, negb_true_iff.
    now rewrite String.eqb_neq. }
  assert (Hitm : forall r, In r (salesTransactionItems (withoutSale id d))
                           <-> In r (salesTransactionItems d) /\ sti_transactionId r <> id).
  { intros r. unfold withoutSale. simpl. rewrite filter_In, negb_true_iff.
    now rewrite String.eqb_neq. }
  assert (Hrun : result out = Ok tt /\ after out = withoutSale id d /\
                 exists before,
                   statements out
                   = before ++ [Delete T_salesTransactionItems id;
                                Delete T_salesTransactions id]).
  { unfold out. rewrite deleteSalesTransactionSecure_run. cbv zeta.
    destruct (String.eqb role "admin") eqn:Hrole.
    - repeat split. exists []. reflexivity.
    - destruct Hauth as [-> | Hst]; [discriminate Hrole |].
      destruct (filter _ (salesTransactions d)) eqn:Hsel.
      + exfalso. revert Hsel. apply filter_nonempty with (x := sale); [exact Hin |].
        rewrite Hid, Hst, !String.eqb_refl. reflexivity.
      + repeat split. exists [Select T_salesTransactions id]. reflexivity. }
  destruct Hrun as (Hres & Hafter & Hstmts).
  rewrite Hafter.
  split; [exact Hres |]. split; [exact Hstmts |].
  split; [exact Hhdr |]. split; [exact Hitm |]. split; [| split].
  - intros Hstill. apply Hhdr in Hstill. destruct Hstill as [_ Hne]. contradiction.
  - intros r Hr. apply Hitm in Hr. tauto.
  - repeat split.
Qed.

(** C10.  With an [id] no stored row matches (no header has it, no item
    references it), a caller that is not [admin] gets the authorization
    error, the same error as for a foreign row and no not-found error,
    and the store is unchanged; for an [admin] the call returns without
    error and the store is unchanged.  Both hold of sales and of purchase
    orders. *)
Theorem deleteSecure_unknown_id
    (id stationId : Id) (role : string) (d : DB) :
  ((forall r, In r (salesTransactions d) -> st_id r <> id) ->
   (forall r, In r (salesTransactionItems d) -> sti_transactionId r <> id) ->
   let out := deleteSalesTransactionSecure id stationId role d in
   (role <> "admin" ->
    result out = Fail (JsError "Unauthorized to delete this transaction") /\
    after out = d) /\
   (role = "admin" -> result out = Ok tt /\ after out = d)) /\
  ((forall r, In r (purchaseOrders d) -> po_id r <> id) ->
   (forall r, In r (purchaseOrderItems d) -> poi_orderId r <> id) ->
   let out := deletePurchaseOrderSecure id stationId role d in
   (role <> "admin" ->
    result out = Fail (JsError "Unauthorized to delete this order") /\
    after out = d) /\
   (role = "admin" -> result out = Ok tt /\ after out = d)).
Proof.
  split.
  - intros Hhdr Hitm out. unfold out. rewrite deleteSalesTransactionSecure_run. cbv zeta.
    split.
    + intros Hrole. rewrite (not_admin _ Hrole).
      rewrite filter_none; [split; reflexivity |].
      intros x Hx. apply andb_false_iff. left. apply String.eqb_neq. auto.
    + intros ->. simpl. split; [reflexivity |].
      unfold withoutSale. rewrite !filter_all.
      * destruct d; reflexivity.
      * simpl. intros x Hx. apply negb_true_iff, String.eqb_neq. auto.
      * intros x Hx. apply negb_true_iff, String.eqb_neq. auto.
  - intros Hhdr Hitm out. unfold out. rewrite deletePurchaseOrderSecure_run. cbv zeta.
    split.
    + intros Hrole. rewrite (not_admin _ Hrole).
      rewrite filter_none; [split; reflexivity |].
      intros x Hx. apply andb_false_iff. left. apply String.eqb_neq. auto.
    + intros ->. simpl. split; [reflexivity |].
      unfold withoutOrder. rewrite !filter_all.
      * destruct d; reflexivity.
      * simpl. intros x Hx. apply negb_true_iff, String.eqb_neq. auto.
      * intros x Hx. apply negb_true_iff, String.eqb_neq. auto.
Qed.

(** ** Absolute-set updates *)

Lemma updateTankStock_run (rw : Rewrites) (id : Id) (quantity : Numeric) (d : DB) :
  updateTankStock rw id quantity d =
  let kept := filter (fun t => negb (String.eqb (tank_id t) id)) (tanks d) in
  let written := map (setCurrentStock quantity)
                     (filter (fun t => String.eqb (tank_id t) id) (tanks d)) in
  if forallb (acceptsTank rw d) written
  then mkOutcome (Ok (hd_error written)) (withTanks d (place rw _ kept written))
                 [Update T_tanks id]
  else mkOutcome (Fail (DbError T_tanks)) d [Update T_tanks id].
Proof.
  unfold updateTankStock, autocommit, transaction, bind, send, getStore, putStore,
    throw, ret. cbn [store issued app].
  destruct (forallb _ _); reflexivity.
Qed.

Lemma updateCustomerBalance_run (rw : Rewrites) (id : Id) (amount : Numeric) (d : DB) :
  updateCustomerBalance rw id amount d =
  let kept := filter (fun c => negb (String.eqb (cust_id c) id)) (customers d) in
  let written := map (setOutstandingAmount amount)
                     (filter (fun c => String.eqb (cust_id c) id) (customers d)) in
  if forallb (acceptsCustomer rw d) written
  then mkOutcome (Ok (hd_error written)) (withCustomers d (place rw _ kept written))
                 [Update T_customers id]
  else mkOutcome (Fail (DbError T_customers)) d [Update T_customers id].
Proof.
  unfold updateCustomerBalance, autocommit, transaction, bind, send, getStore, putStore,
    throw, ret. cbn [store issued app].
  destruct (forallb _ _); reflexivity.
Qed.


Lemma hd_error_filter_some {A} (p : A -> bool) (l : list A) (x : A) :
  In x l -> p x = true -> exists y, hd_error (filter p l) = Some y.
Proof.
  intros Hin Hp. destruct (filter p l) as [| y rest] eqn:Hf.
  - exfalso. exact (filter_nonempty p l x Hin Hp Hf).
  - exists y. reflexivity.
Qed.

(** The rows kept followed by the rows rewritten are, in some order, the
    rows of the table with the matching ones rewritten. *)
Lemma kept_written_perm {A} (p : A -> bool) (g : A -> A) (l : list A) :
  Permutation (filter (fun x => negb (p x)) l ++ map g (filter p l))
              (map (fun x => if p x then g x else x) l).
Proof.
  induction l as [| x l IH]; simpl.
  - apply perm_nil.
  - destruct (p x); simpl.
    + apply Permutation_sym, Permutation_cons_app, Permutation_sym. exact IH.
    + apply perm_skip. exact IH.
Qed.

Lemma placed_perm (rw : Rewrites) {A} (p : A -> bool) (g : A -> A) (l : list A) :
  Permutation (place rw A (filter (fun x => negb (p x)) l) (map g (filter p l)))
              (map (fun x => if p x then g x else x) l).
Proof.
  eapply perm_trans; [apply Permutation_sym, place_perm | apply kept_written_perm].
Qed.

Lemma written_accepted {A} (accepts : A -> bool) (p : A -> bool) (g : A -> A) (l : list A) :
  (forall x, In x l -> p x = true -> accepts (g x) = true) ->
  forallb accepts (map g (filter p l)) = true.
Proof.
  intros H. apply forallb_forall. intros y Hy.
  apply in_map_iff in Hy. destruct Hy as (x & <- & Hx).
  apply filter_In in Hx. destruct Hx as [Hin Hp]. exact (H x Hin Hp).
Qed.

Lemma written_refused {A} (accepts : A -> bool) (p : A -> bool) (g : A -> A) (l : list A)
    (x : A) :
  In x l -> p x = true -> accepts (g x) = false ->
  forallb accepts (map g (filter p l)) = false.
Proof.
  intros Hin Hp Hrej. destruct (forallb accepts (map g (filter p l))) eqn:Hall;
    [| reflexivity].
  rewrite forallb_forall in Hall.
  rewrite Hall in Hrej; [discriminate |].
  apply in_map. apply filter_In. split; assumption.
Qed.

(** C8.  [updateTankStock(tankId, newQuantity)] compares [newQuantity]
    with nothing, neither with zero nor with the capacity of the tank:
    for every value, below zero and above the capacity included, that
    the store's column takes, the call succeeds and writes [newQuantity]
    as it is.  Every tank row with that id becomes the same row with
    [currentStock = newQuantity], the row handed back carries
    [newQuantity], no other tank row and no other table changes.  The
    call fails only when the store refuses a rewritten row, and then
    nothing is written. *)
Theorem updateTankStock_sets_exactly
    (rw : Rewrites) (tankId : Id) (newQuantity : Numeric) (d : DB) :
  let out := updateTankStock rw tankId newQuantity d in
  ((forall t, In t (tanks d) -> tank_id t = tankId ->
              acceptsTank rw d (setCurrentStock newQuantity t) = true) ->
   (exists returned, result out = Ok returned /\
      (forall t, returned = Some t ->
                 tank_id t = tankId /\ tank_currentStock t = newQuantity) /\
      (forall t, In t (tanks d) -> tank_id t = tankId -> returned <> None)) /\
   List.length (tanks (after out)) = List.length (tanks d) /\
   (forall t, In t (tanks d) -> tank_id t = tankId ->
              In (setCurrentStock newQuantity t) (tanks (after out))) /\
   (forall t, In t (tanks (after out)) -> tank_id t = tankId ->
              tank_currentStock t = newQuantity) /\
   (forall t, tank_id t <> tankId -> (In t (tanks (after out)) <-> In t (tanks d))) /\
   salesTransactions (after out) = salesTransactions d /\
   salesTransactionItems (after out) = salesTransactionItems d /\
   purchaseOrders (after out) = purchaseOrders d /\
   purchaseOrderItems (after out) = purchaseOrderItems d /\
   customers (after out) = customers d) /\
  (forall t, In t (tanks d) -> tank_id t = tankId ->
             acceptsTank rw d (setCurrentStock newQuantity t) = false ->
             result out = Fail (DbError T_tanks) /\ after out = d).
Proof.
  intros out. unfold out. rewrite updateTankStock_run. cbv zeta.
  set (p := fun t => String.eqb (tank_id t) tankId).
  set (f := fun t => if p t then setCurrentStock newQuantity t else t).
  split.
  - intros Hacc. rewrite written_accepted.
    2:{ intros t Hin Hp. apply Hacc; [exact Hin | apply String.eqb_eq; exact Hp]. }
    cbn [result after tanks withTanks].
    pose proof (placed_perm rw p (setCurrentStock newQuantity) (tanks d)) as Hperm.
    fold f in Hperm.
    assert (Hset : forall t, In t (map f (tanks d)) -> tank_id t = tankId ->
                             tank_currentStock t = newQuantity).
    { intros t Ht Hid. apply in_map_iff in Ht. destruct Ht as (t0 & <- & _).
      unfold f, p in *. destruct (String.eqb (tank_id t0) tankId) eqn:E.
      - reflexivity.
      - apply String.eqb_neq in E. contradiction. }
    split; [| split; [| split; [| split; [| split]]]].
    + eexists. split; [reflexivity |]. split.
      * intros t Ht.
        assert (Hin : In t (map (setCurrentStock newQuantity) (filter p (tanks d)))).
        { destruct (map _ _) as [| y rest]; simpl in Ht; [discriminate |].
          injection Ht as ->. left. reflexivity. }
        apply in_map_iff in Hin. destruct Hin as (t0 & <- & Ht0).
        apply filter_In in Ht0. destruct Ht0 as [_ Hp].
        split; [apply String.eqb_eq; exact Hp | reflexivity].
      * intros t Hin Hid Hnone.
        assert (Hw : In (setCurrentStock newQuantity t)
                        (map (setCurrentStock newQuantity) (filter p (tanks d)))).
        { apply in_map, filter_In. split; [exact Hin |].
          unfold p. rewrite Hid. apply String.eqb_refl. }
        destruct (map _ _); [contradiction | discriminate].
    + rewrite <- (length_map f (tanks d)). exact (Permutation_length Hperm).
    + intros t Hin Hid. apply (Permutation_in _ (Permutation_sym Hperm)).
      apply in_map_iff. exists t. split; [| exact Hin].
      unfold f, p. rewrite Hid, String.eqb_refl. reflexivity.
    + intros t Ht. apply Hset. exact (Permutation_in _ Hperm Ht).
    + intros t Hid. split.
      * intros Ht. apply (Permutation_in _ Hperm) in Ht.
        apply in_map_iff in Ht. destruct Ht as (t0 & Hf & Hin). unfold f, p in Hf.
        destruct (String.eqb (tank_id t0) tankId) eqn:E.
        -- apply String.eqb_eq in E. subst t. simpl in Hid. contradiction.
        -- subst t0. exact Hin.
      * intros Hin. apply (Permutation_in _ (Permutation_sym Hperm)).
        apply in_map_iff. exists t. split; [| exact Hin].
        unfold f, p. apply String.eqb_neq in Hid. rewrite Hid. reflexivity.
    + repeat split.
  - intros t Hin Hid Hrej.
    rewrite (written_refused _ p _ _ t Hin); [split; reflexivity | | exact Hrej].
    unfold p. rewrite Hid. apply String.eqb_refl.
Qed.

(** ** Dashboard *)

Lemma payables_station_blind (tz : Z) (now : Timestamp) (s1 s2 : Id) (d : DB) :
  payables_totalPayable (getDashboardStats tz now s1 d)
  = payables_totalPayable (getDashboardStats tz now s2 d).
Proof. reflexivity. Qed.

Lemma payables_all_pending (tz : Z) (now : Timestamp) (stationId : Id) (d : DB) :
  payables_totalPayable (getDashboardStats tz now stationId d)
  = total (map po_totalAmount
             (filter (fun r => String.eqb (po_status r) "pending") (purchaseOrders d))).
Proof. unfold getDashboardStats. simpl. apply orZero_sqlSum. Qed.

(** C3.  The payables of the dashboard of station-1 count the pending
    order of station-2: the code gives 600.00 where the pending orders of
    station-1 sum to 100.00 (the delivered order is left out, as it should
    be). *)
Theorem getDashboardStats_payables_other_station :
  payables_totalPayable (getDashboardStats 0 Demo.noon "station-1" Demo.twoStations)
  = 60000 /\
  total (map po_totalAmount (pendingOrdersOfStation "station-1" Demo.twoStations))
  = 10000.
Proof. split; reflexivity. Qed.

Lemma msPerDay_pos : 0 < msPerDay.
Proof. reflexivity. Qed.

Lemma startOfLocalDay_le (tz : Z) (now t : Timestamp) :
  startOfLocalDay tz now <= t <-> localDay tz now <= localDay tz t.
Proof.
  unfold startOfLocalDay, localDay.
  pose proof msPerDay_pos as Hpos.
  pose proof (Z.div_mod (now + tz) msPerDay ltac:(lia)) as Hnow.
  split; intros H.
  - apply Z.div_le_lower_bound; lia.
  - pose proof (Z.mul_div_le (t + tz) msPerDay Hpos) as Ht.
    assert (msPerDay * ((now + tz) / msPerDay) <= msPerDay * ((t + tz) / msPerDay))
      by (apply Z.mul_le_mono_nonneg_l; lia).
    lia.
Qed.

Lemma todaysSales_rows (tz : Z) (now : Timestamp) (stationId : Id) (d : DB) :
  filter (fun r => String.eqb (st_stationId r) stationId
                   && (startOfLocalDay tz now <=? st_transactionDate r))
         (salesTransactions d)
  = salesFromCurrentDayOn tz now stationId d.
Proof.
  unfold salesFromCurrentDayOn. apply filter_ext. intros r. f_equal.
  apply eq_true_iff_eq. rewrite !Z.leb_le. apply startOfLocalDay_le.
Qed.

(** C4, amended.  [todaysSales.totalAmount] is the sum of [totalAmount]
    over the station's sales dated on the current calendar day or on any
    later day: earlier days and other stations contribute nothing, there
    is no upper bound on the date.  When no sale of the station is dated
    after the current day, it is the sum over the sales of the current
    day. *)
Theorem todaysSales_from_current_day_on
    (tz : Z) (now : Timestamp) (stationId : Id) (d : DB) :
  let stats := getDashboardStats tz now stationId d in
  totalAmount (todaysSales stats)
  = total (map st_totalAmount (salesFromCurrentDayOn tz now stationId d)) /\
  count (todaysSales stats)
  = Z.of_nat (List.length (salesFromCurrentDayOn tz now stationId d)) /\
  ((forall r, In r (salesTransactions d) -> st_stationId r = stationId ->
              localDay tz (st_transactionDate r) <= localDay tz now) ->
   totalAmount (todaysSales stats)
   = total (map st_totalAmount (salesOfCurrentDay tz now stationId d))).
Proof.
  intros stats.
  assert (Hsum : totalAmount (todaysSales stats)
                 = total (map st_totalAmount (salesFromCurrentDayOn tz now stationId d))).
  { unfold stats, getDashboardStats. cbn [todaysSales totalAmount].
    rewrite orZero_sqlSum, todaysSales_rows. reflexivity. }
  split; [exact Hsum |]. split.
  - unfold stats, getDashboardStats. cbn [todaysSales count].
    rewrite todaysSales_rows. reflexivity.
  - intros Hnone. rewrite Hsum. do 2 f_equal.
    unfold salesFromCurrentDayOn, salesOfCurrentDay. apply filter_ext_in.
    intros r Hin. destruct (String.eqb (st_stationId r) stationId) eqn:Hst; simpl.
    + apply String.eqb_eq in Hst. specialize (Hnone r Hin Hst).
      apply eq_true_iff_eq. rewrite Z.leb_le, Z.eqb_eq. lia.
    + reflexivity.
Qed.

(** ** Two requests, one balance *)



Section RaceProperties.

Variable rw : Rewrites.

(** The store takes the balances the requests write. *)
Hypothesis balances_accepted : forall d c, acceptsCustomer rw d c = true.




End RaceProperties.





(** ** The operations run on the demo store *)

(** Two accepted lines are stored with their header; a rejected second
    line leaves the store empty. *)
Lemma createSalesTransaction_atomic_witness :
  let out := createSalesTransaction Demo.schema Demo.cashSale
               (JsArray [Demo.petrol; Demo.diesel]) Demo.empty in
  let bad := createSalesTransaction Demo.schema Demo.cashSale
               (JsArray [Demo.petrol; Demo.badItem]) Demo.empty in
  (isOk (result out) = true /\
   List.length (salesTransactions (after out)) = 1%nat /\
   List.length (salesTransactionItems (after out)) = 2%nat) /\
  (result bad = Fail (DbError T_salesTransactionItems) /\ after bad = Demo.empty).
Proof.
  intros out bad. split.
  - destruct (createSalesTransaction_atomic Demo.schema Demo.cashSale
                [Demo.petrol; Demo.diesel] Demo.empty ltac:(discriminate))
      as [Hok _].
    destruct (Hok eq_refl eq_refl) as (Hres & Hhdr & (rows & Hitems & Hlen & _) & _).
    unfold out. rewrite Hres, Hhdr, Hitems, !length_app, Hlen. repeat split.
  - destruct (createSalesTransaction_atomic Demo.schema Demo.cashSale
                [Demo.petrol; Demo.badItem] Demo.empty ltac:(discriminate))
      as (_ & Hfail & _).
    exact (Hfail eq_refl eq_refl).
Defined.

Lemma createSalesTransaction_without_items_witness :
  result (createSalesTransaction Demo.schema Demo.cashSale JsOther Demo.ledger)
  = Ok (saleRow Demo.schema Demo.ledger Demo.cashSale) /\
  List.length (salesTransactions
                 (after (createSalesTransaction Demo.schema Demo.cashSale JsOther Demo.ledger)))
  = 2%nat /\
  salesTransactionItems
    (after (createSalesTransaction Demo.schema Demo.cashSale JsOther Demo.ledger))
  = salesTransactionItems Demo.ledger.
Proof.
  destruct (createSalesTransaction_without_items Demo.schema Demo.cashSale JsOther
              Demo.ledger (or_intror eq_refl) eq_refl)
    as (Hres & Hhdr & Hitems & _).
  split; [exact Hres |]. split; [| exact Hitems].
  rewrite Hhdr. reflexivity.
Defined.

Lemma createPurchaseOrder_atomic_status_witness :
  po_status (orderRow Demo.schema Demo.empty (Demo.order None)) = "pending" /\
  result (createPurchaseOrder Demo.schema (Demo.order None) [Demo.orderLine] Demo.empty)
  = Ok (orderRow Demo.schema Demo.empty (Demo.order None)) /\
  po_status (orderRow Demo.schema Demo.empty (Demo.order (Some "approved"))) = "approved".
Proof.
  destruct (createPurchaseOrder_atomic_status Demo.schema (Demo.order None)
              [Demo.orderLine] Demo.empty) as [Hok _].
  destruct (Hok eq_refl eq_refl) as (Hres & Hstatus & _).
  destruct (createPurchaseOrder_atomic_status Demo.schema (Demo.order (Some "approved"))
              [Demo.orderLine] Demo.empty) as [Hok' _].
  destruct (Hok' eq_refl eq_refl) as (_ & Hstatus' & _).
  split; [exact Hstatus |]. split; [exact Hres | exact Hstatus'].
Defined.

(** The status is not always [pending]: a header that carries
    [delivered] is stored as [delivered]. *)
Lemma createPurchaseOrder_status_as_given :
  ~ (forall (schema : Schema) (insertOrder : InsertPurchaseOrder)
            (items : list InsertPurchaseOrderItem) (d : DB) (order : PurchaseOrder),
       result (createPurchaseOrder schema insertOrder items d) = Ok order ->
       po_status order = "pending").
Proof.
  intros H.
  specialize (H Demo.schema (Demo.order (Some "delivered")) [Demo.orderLine]
                Demo.empty _ eq_refl).
  discriminate H.
Qed.

Lemma demo_sale_keys : NoDup (map st_id (salesTransactions Demo.ledger)).
Proof. repeat constructor. simpl. tauto. Defined.

Lemma demo_order_keys : NoDup (map po_id (purchaseOrders Demo.ledger)).
Proof. repeat constructor. simpl. tauto. Defined.

(** A manager of station-2 may not delete the sale of station-1, a manager
    of station-1 may not delete the order of station-2. *)
Lemma deleteSecure_other_station_rejected_witness :
  (result (deleteSalesTransactionSecure "sale-1" "station-2" "manager" Demo.ledger)
   = Fail (JsError "Unauthorized to delete this transaction") /\
   after (deleteSalesTransactionSecure "sale-1" "station-2" "manager" Demo.ledger)
   = Demo.ledger) /\
  (result (deletePurchaseOrderSecure "po-1" "station-1" "manager" Demo.ledger)
   = Fail (JsError "Unauthorized to delete this order") /\
   after (deletePurchaseOrderSecure "po-1" "station-1" "manager" Demo.ledger)
   = Demo.ledger).
Proof.
  split.
  - destruct (deleteSecure_other_station_rejected "sale-1" "station-2" "manager"
                Demo.ledger ltac:(discriminate)) as [Hsale _].
    apply (Hsale (mkSalesTransaction "sale-1" "station-1" None "INV-001" "cash" 75000 1000)).
    + exact demo_sale_keys.
    + left. reflexivity.
    + reflexivity.
    + discriminate.
  - destruct (deleteSecure_other_station_rejected "po-1" "station-1" "manager"
                Demo.ledger ltac:(discriminate)) as [_ Horder].
    apply (Horder (mkPurchaseOrder "po-1" "station-2" "supplier-1" "PO00000001"
                     "pending" 500000 1000)).
    + exact demo_order_keys.
    + left. reflexivity.
    + reflexivity.
    + discriminate.
Defined.

(** A manager of station-1 deletes the sale of station-1 with its two lines. *)
Lemma deleteSalesTransactionSecure_cascades_witness :
  let out := deleteSalesTransactionSecure "sale-1" "station-1" "manager" Demo.ledger in
  result out = Ok tt /\
  (forall r, In r (salesTransactionItems (after out)) -> sti_transactionId r <> "sale-1").
Proof.
  intros out.
  destruct (deleteSalesTransactionSecure_cascades "sale-1" "station-1" "manager" Demo.ledger
              (mkSalesTransaction "sale-1" "station-1" None "INV-001" "cash" 75000 1000)
              (or_introl eq_refl) eq_refl (or_intror eq_refl))
    as (Hres & _ & _ & _ & _ & Horphans & _).
  split; [exact Hres | exact Horphans].
Defined.

Lemma deleteSecure_unknown_id_witness :
  (result (deleteSalesTransactionSecure "sale-9" "station-1" "manager" Demo.ledger)
   = Fail (JsError "Unauthorized to delete this transaction")) /\
  (result (deleteSalesTransactionSecure "sale-9" "station-1" "admin" Demo.ledger) = Ok tt /\
   after (deleteSalesTransactionSecure "sale-9" "station-1" "admin" Demo.ledger)
   = Demo.ledger) /\
  (result (deletePurchaseOrderSecure "po-9" "station-1" "admin" Demo.ledger) = Ok tt /\
   after (deletePurchaseOrderSecure "po-9" "station-1" "admin" Demo.ledger)
   = Demo.ledger).
Proof.
  assert (Hsale : forall r, In r (salesTransactions Demo.ledger) -> st_id r <> "sale-9")
    by (intros r [<- | []]; discriminate).
  assert (Hline : forall r, In r (salesTransactionItems Demo.ledger) ->
                            sti_transactionId r <> "sale-9")
    by (intros r [<- | [<- | []]]; discriminate).
  assert (Horder : forall r, In r (purchaseOrders Demo.ledger) -> po_id r <> "po-9")
    by (intros r [<- | []]; discriminate).
  assert (Hpline : forall r, In r (purchaseOrderItems Demo.ledger) ->
                             poi_orderId r <> "po-9")
    by (intros r [<- | []]; discriminate).
  split; [| split].
  - destruct (deleteSecure_unknown_id "sale-9" "station-1" "manager" Demo.ledger)
      as [H _].
    destruct (H Hsale Hline) as [Hdenied _].
    apply Hdenied. discriminate.
  - destruct (deleteSecure_unknown_id "sale-9" "station-1" "admin" Demo.ledger)
      as [H _].
    destruct (H Hsale Hline) as [_ Hadmin].
    exact (Hadmin eq_refl).
  - destruct (deleteSecure_unknown_id "po-9" "station-1" "admin" Demo.ledger)
      as [_ H].
    destruct (H Horder Hpline) as [_ Hadmin].
    exact (Hadmin eq_refl).
Defined.

Lemma demo_tank_fits (q : Numeric) :
  DemoRewrites.fits q = true ->
  forall t, In t (tanks Demo.ledger) -> tank_id t = "tank-1" ->
            acceptsTank DemoRewrites.bounded Demo.ledger (setCurrentStock q t) = true.
Proof. intros Hq t _ _. exact Hq. Defined.

(** On a store with [numeric(10,2)] columns a stock below zero and a
    stock above the capacity of 10000.00 are both written as they are; a
    stock of 10^8, which the column cannot hold, is refused and nothing
    changes. *)
Lemma updateTankStock_sets_exactly_witness :
  (isOk (result (updateTankStock DemoRewrites.bounded "tank-1" (-500) Demo.ledger)) = true /\
   forall t, In t (tanks (after (updateTankStock DemoRewrites.bounded "tank-1" (-500)
                                   Demo.ledger))) ->
             tank_id t = "tank-1" -> tank_currentStock t = -500) /\
  (isOk (result (updateTankStock DemoRewrites.bounded "tank-1" 2000000 Demo.ledger)) = true /\
   forall t, In t (tanks (after (updateTankStock DemoRewrites.bounded "tank-1" 2000000
                                   Demo.ledger))) ->
             tank_id t = "tank-1" -> tank_currentStock t = 2000000) /\
  (result (updateTankStock DemoRewrites.bounded "tank-1" 10000000000 Demo.ledger)
   = Fail (DbError T_tanks) /\
   after (updateTankStock DemoRewrites.bounded "tank-1" 10000000000 Demo.ledger)
   = Demo.ledger).
Proof.
  split; [| split].
  - destruct (updateTankStock_sets_exactly DemoRewrites.bounded "tank-1" (-500)
                Demo.ledger) as [Hok _].
    destruct (Hok (demo_tank_fits (-500) eq_refl))
      as ((returned & Hres & _) & _ & _ & H & _).
    split; [rewrite Hres; reflexivity | exact H].
  - destruct (updateTankStock_sets_exactly DemoRewrites.bounded "tank-1" 2000000
                Demo.ledger) as [Hok _].
    destruct (Hok (demo_tank_fits 2000000 eq_refl))
      as ((returned & Hres & _) & _ & _ & H & _).
    split; [rewrite Hres; reflexivity | exact H].
  - destruct (updateTankStock_sets_exactly DemoRewrites.bounded "tank-1" 10000000000
                Demo.ledger) as [_ Hrefused].
    apply (Hrefused (mkTank "tank-1" "station-1" "petrol" 1000000 750000 100000)).
    + left. reflexivity.
    + reflexivity.
    + reflexivity.
Defined.

(** Today's total is not the total of the current day alone: with a sale
    dated tomorrow the code sums 0.23, the sales of the day sum to 0.20. *)
Lemma todaysSales_counts_later_days :
  ~ (forall (tz : Z) (now : Timestamp) (stationId : Id) (d : DB),
       totalAmount (todaysSales (getDashboardStats tz now stationId d))
       = total (map st_totalAmount (salesOfCurrentDay tz now stationId d))).
Proof.
  intros H. specialize (H 0 Demo.noon "station-1" Demo.threeDays).
  vm_compute in H. discriminate H.
Qed.

(** On the day after [noon] no sale of the demo store is dated later. *)
Lemma todaysSales_from_current_day_on_witness :
  totalAmount (todaysSales
    (getDashboardStats 0 (Demo.noon + msPerDay) "station-1" Demo.threeDays))
  = total (map st_totalAmount
      (salesOfCurrentDay 0 (Demo.noon + msPerDay) "station-1" Demo.threeDays)).
Proof.
  destruct (todaysSales_from_current_day_on 0 (Demo.noon + msPerDay) "station-1"
              Demo.threeDays) as (_ & _ & H).
  apply H.
  intros r [<- | [<- | [<- | []]]] _; vm_compute; discriminate.
Defined.



(** * Further properties of the persistence gateway *)


Lemma filter_app_all {A} (p : A -> bool) (old new : list A) :
  (forall x, In x old -> p x = true) ->
  (forall x, In x new -> p x = false) ->
  filter p (old ++ new) = old.
Proof.
  intros Hold Hnew. rewrite filter_app, (filter_all p old Hold), (filter_none p new Hnew).
  apply app_nil_r.
Qed.

Lemma Forall2_storedAs_sale (tid : Id) (items : list InsertSalesTransactionItem)
    (rows : list SalesTransactionItem) :
  Forall2 (saleItemStoredAs tid) items rows ->
  forall r, In r rows -> sti_transactionId r = tid.
Proof.
  induction 1 as [| item row items rows Hrow _ IH]; intros r Hr; simpl in Hr.
  - contradiction.
  - destruct Hr as [<- | Hr]; [apply Hrow | apply IH; exact Hr].
Qed.

Lemma Forall2_storedAs_order (oid : Id) (items : list InsertPurchaseOrderItem)
    (rows : list PurchaseOrderItem) :
  Forall2 (orderItemStoredAs oid) items rows ->
  forall r, In r rows -> poi_orderId r = oid.
Proof.
  induction 1 as [| item row items rows Hrow _ IH]; intros r Hr; simpl in Hr.
  - contradiction.
  - destruct Hr as [<- | Hr]; [apply Hrow | apply IH; exact Hr].
Qed.

Section MoreStorageProperties.

Variable schema : Schema.

Lemma createSalesTransaction_header_rejected
    (insertTransaction : InsertSalesTransaction)
    (items : JsValue InsertSalesTransactionItem) (d : DB) :
  acceptsSale schema d (saleRow schema d insertTransaction) = false ->
  result (createSalesTransaction schema insertTransaction items d)
  = Fail (DbError T_salesTransactions).
Proof.
  intros Hhdr.
  unfold createSalesTransaction, transaction, bind.
  rewrite insertSalesTransaction_run. cbn [store issued app]. cbv zeta.
  rewrite Hhdr. reflexivity.
Qed.

(** A call that succeeded has stored the header and one row per item. *)
Lemma createSalesTransaction_succeeded
    (insertTransaction : InsertSalesTransaction)
    (items : JsValue InsertSalesTransactionItem) (d : DB) (returned : SalesTransaction) :
  result (createSalesTransaction schema insertTransaction items d) = Ok returned ->
  let header := saleRow schema d insertTransaction in
  returned = header /\
  exists rows,
    after (createSalesTransaction schema insertTransaction items d)
    = withSalesTransactionItems
        (withSalesTransactions d (salesTransactions d ++ [header]))
        (salesTransactionItems d ++ rows)
    /\ Forall2 (saleItemStoredAs (st_id header)) (arrayOrEmpty items) rows.
Proof.
  intros Hok header.
  destruct (acceptsSale schema d header) eqn:Hhdr.
  - destruct (saleItemsAccepted schema (st_id header)
                (withSalesTransactions d (salesTransactions d ++ [header]))
                (arrayOrEmpty items)) eqn:Hitems.
    + destruct (createSalesTransaction_committed schema insertTransaction items d
                  Hhdr Hitems) as (rows & Hrun & Hrows).
      rewrite Hrun in Hok |- *. cbn [result after] in *.
      split; [injection Hok as Hok; symmetry; exact Hok |]. exists rows. split; [reflexivity | exact Hrows].
    + rewrite (createSalesTransaction_item_rejected schema insertTransaction items d
                 Hhdr Hitems) in Hok. discriminate.
  - rewrite (createSalesTransaction_header_rejected insertTransaction items d Hhdr) in Hok.
    discriminate.
Qed.

Lemma createPurchaseOrder_succeeded
    (insertOrder : InsertPurchaseOrder)
    (items : list InsertPurchaseOrderItem) (d : DB) (returned : PurchaseOrder) :
  result (createPurchaseOrder schema insertOrder items d) = Ok returned ->
  let header := orderRow schema d insertOrder in
  returned = header /\
  exists rows,
    after (createPurchaseOrder schema insertOrder items d)
    = withPurchaseOrderItems
        (withPurchaseOrders d (purchaseOrders d ++ [header]))
        (purchaseOrderItems d ++ rows)
    /\ Forall2 (orderItemStoredAs (po_id header)) items rows.
Proof.
  intros Hok header.
  destruct (acceptsOrder schema d header) eqn:Hhdr.
  - destruct (orderItemsAccepted schema (po_id header)
                (withPurchaseOrders d (purchaseOrders d ++ [header])) items) eqn:Hitems.
    + destruct (createPurchaseOrder_committed schema insertOrder items d Hhdr Hitems)
        as (rows & Hrun & Hrows).
      rewrite Hrun in Hok |- *. cbn [result after] in *.
      split; [injection Hok as Hok; symmetry; exact Hok |]. exists rows. split; [reflexivity | exact Hrows].
    + rewrite (createPurchaseOrder_item_rejected schema insertOrder items d
                 Hhdr Hitems) in Hok. discriminate.
  - rewrite (createPurchaseOrder_header_rejected schema insertOrder items d Hhdr) in Hok.
    discriminate.
Qed.



(** X3.  Creating a sale and then deleting it, as [admin] or as a caller
    of the sale's own station, gives back the store as it was before the
    sale, when the generated id was new to both sales tables.  The same
    holds of a purchase order. *)
Theorem create_then_delete_restores
    (stationId : Id) (role : string) (d : DB) :
  (forall (insertTransaction : InsertSalesTransaction)
          (items : list InsertSalesTransactionItem) (returned : SalesTransaction),
     let out := createSalesTransaction schema insertTransaction (JsArray items) d in
     result out = Ok returned ->
     (forall r, In r (salesTransactions d) -> st_id r <> st_id returned) ->
     (forall r, In r (salesTransactionItems d) -> sti_transactionId r <> st_id returned) ->
     role = "admin" \/ stationId = ist_stationId insertTransaction ->
     let del := deleteSalesTransactionSecure (st_id returned) stationId role (after out) in
     result del = Ok tt /\ after del = d) /\
  (forall (insertOrder : InsertPurchaseOrder)
          (items : list InsertPurchaseOrderItem) (returned : PurchaseOrder),
     let out := createPurchaseOrder schema insertOrder items d in
     result out = Ok returned ->
     (forall r, In r (purchaseOrders d) -> po_id r <> po_id returned) ->
     (forall r, In r (purchaseOrderItems d) -> poi_orderId r <> po_id returned) ->
     role = "admin" \/ stationId = ipo_stationId insertOrder ->
     let del := deletePurchaseOrderSecure (po_id returned) stationId role (after out) in
     result del = Ok tt /\ after del = d).
Proof.
  split.
  - intros insertTransaction items returned out Hok Hfresh Hunref Hauth del.
    destruct (createSalesTransaction_succeeded insertTransaction (JsArray items) d
                returned Hok) as (Hret & rows & Hafter & Hrows).
    cbv zeta in *. rewrite <- Hret in *.
    assert (Hdel : withoutSale (st_id returned) (after out) = d).
    { unfold out. rewrite Hafter. unfold withoutSale.
      cbn [salesTransactions salesTransactionItems withSalesTransactions
           withSalesTransactionItems].
      rewrite !filter_app_all.
      - destruct d; reflexivity.
      - intros x Hx. apply negb_true_iff, String.eqb_neq. auto.
      - intros x [<- | []]. apply negb_false_iff, String.eqb_refl.
      - intros x Hx. apply negb_true_iff, String.eqb_neq. auto.
      - intros x Hx. apply negb_false_iff, String.eqb_eq.
        exact (Forall2_storedAs_sale _ _ _ Hrows x Hx). }
    unfold del. rewrite deleteSalesTransactionSecure_run. cbv zeta.
    destruct (String.eqb role "admin") eqn:Hrole.
    + split; [reflexivity | exact Hdel].
    + destruct Hauth as [-> | Hst]; [discriminate Hrole |].
      destruct (filter _ (salesTransactions (after out))) eqn:Hsel.
      * exfalso. revert Hsel. apply filter_nonempty with (x := returned).
        -- unfold out. rewrite Hafter. simpl. apply in_or_app. right. left. reflexivity.
        -- rewrite String.eqb_refl. simpl. rewrite Hst, Hret. apply String.eqb_refl.
      * split; [reflexivity | exact Hdel].
  - intros insertOrder items returned out Hok Hfresh Hunref Hauth del.
    destruct (createPurchaseOrder_succeeded insertOrder items d returned Hok)
      as (Hret & rows & Hafter & Hrows).
    cbv zeta in *. rewrite <- Hret in *.
    assert (Hdel : withoutOrder (po_id returned) (after out) = d).
    { unfold out. rewrite Hafter. unfold withoutOrder.
      cbn [purchaseOrders purchaseOrderItems withPurchaseOrders withPurchaseOrderItems].
      rewrite !filter_app_all.
      - destruct d; reflexivity.
      - intros x Hx. apply negb_true_iff, String.eqb_neq. auto.
      - intros x [<- | []]. apply negb_false_iff, String.eqb_refl.
      - intros x Hx. apply negb_true_iff, String.eqb_neq. auto.
      - intros x Hx. apply negb_false_iff, String.eqb_eq.
        exact (Forall2_storedAs_order _ _ _ Hrows x Hx). }
    unfold del. rewrite deletePurchaseOrderSecure_run. cbv zeta.
    destruct (String.eqb role "admin") eqn:Hrole.
    + split; [reflexivity | exact Hdel].
    + destruct Hauth as [-> | Hst]; [discriminate Hrole |].
      destruct (filter _ (purchaseOrders (after out))) eqn:Hsel.
      * exfalso. revert Hsel. apply filter_nonempty with (x := returned).
        -- unfold out. rewrite Hafter. simpl. apply in_or_app. right. left. reflexivity.
        -- rewrite String.eqb_refl. simpl. rewrite Hst, Hret. apply String.eqb_refl.
      * split; [reflexivity | exact Hdel].
Qed.

End MoreStorageProperties.

(** ** Deleting, further *)

Lemma filter_filter_disjoint {A} (p q : A -> bool) (l : list A) :
  (forall x, p x = true -> q x = false) -> filter p (filter q l) = [].
Proof.
  intros H. apply filter_none. intros x Hx. apply filter_In in Hx.
  destruct Hx as [_ Hq]. destruct (p x) eqn:Hp; [| reflexivity].
  rewrite (H x Hp) in Hq. discriminate.
Qed.

Lemma filter_filter_implied {A} (p q : A -> bool) (l : list A) :
  (forall x, p x = true -> q x = true) -> filter p (filter q l) = filter p l.
Proof.
  intros H. induction l as [| x l IH]; simpl; [reflexivity |].
  destruct (q x) eqn:Hq; simpl.
  - rewrite IH. reflexivity.
  - destruct (p x) eqn:Hp; [rewrite (H x Hp) in Hq; discriminate | exact IH].
Qed.

(** What a delete call comes to: it does nothing and fails, or the rows
    of [id] are gone from both tables. *)
Lemma deleteSalesTransactionSecure_after (id stationId : Id) (role : string) (d : DB) :
  let out := deleteSalesTransactionSecure id stationId role d in
  (result out = Ok tt /\ after out = withoutSale id d) \/
  (result out = Fail (JsError "Unauthorized to delete this transaction") /\
   after out = d /\ statements out = [Select T_salesTransactions id]).
Proof.
  intros out. unfold out. rewrite deleteSalesTransactionSecure_run. cbv zeta.
  destruct (String.eqb role "admin"); [left; split; reflexivity |].
  destruct (filter _ (salesTransactions d)).
  - right. repeat split.
  - left. split; reflexivity.
Qed.

Lemma deletePurchaseOrderSecure_after (id stationId : Id) (role : string) (d : DB) :
  let out := deletePurchaseOrderSecure id stationId role d in
  (result out = Ok tt /\ after out = withoutOrder id d) \/
  (result out = Fail (JsError "Unauthorized to delete this order") /\
   after out = d /\ statements out = [Select T_purchaseOrders id]).
Proof.
  intros out. unfold out. rewrite deletePurchaseOrderSecure_run. cbv zeta.
  destruct (String.eqb role "admin"); [left; split; reflexivity |].
  destruct (filter _ (purchaseOrders d)).
  - right. repeat split.
  - left. split; reflexivity.
Qed.

(** X4.  For a stored purchase order and an authorized caller (an
    [admin], or a caller of the order's own station)
    [deletePurchaseOrderSecure] succeeds; its last two statements delete
    the items of the order and then its header; afterwards the header
    rows are those with another id, the item rows those of another
    order, and the sales, tanks and customers are untouched. *)
Theorem deletePurchaseOrderSecure_cascades
    (id stationId : Id) (role : string) (d : DB) (order : PurchaseOrder) :
  In order (purchaseOrders d) ->
  po_id order = id ->
  role = "admin" \/ po_stationId order = stationId ->
  let out := deletePurchaseOrderSecure id stationId role d in
  result out = Ok tt /\
  (exists before,
     statements out
     = before ++ [Delete T_purchaseOrderItems id; Delete T_purchaseOrders id]) /\
  (forall r, In r (purchaseOrders (after out))
             <-> In r (purchaseOrders d) /\ po_id r <> id) /\
  (forall r, In r (purchaseOrderItems (after out))
             <-> In r (purchaseOrderItems d) /\ poi_orderId r <> id) /\
  sameOutsidePurchases d (after out).
Proof.
  intros Hin Hid Hauth out.
  assert (Hrun : result out = Ok tt /\ after out = withoutOrder id d /\
                 exists before,
                   statements out
                   = before ++ [Delete T_purchaseOrderItems id; Delete T_purchaseOrders id]).
  { unfold out. rewrite deletePurchaseOrderSecure_run. cbv zeta.
    destruct (String.eqb role "admin") eqn:Hrole.
    - repeat split. exists []. reflexivity.
    - destruct Hauth as [-> | Hst]; [discriminate Hrole |].
      destruct (filter _ (purchaseOrders d)) eqn:Hsel.
      + exfalso. revert Hsel. apply filter_nonempty with (x := order); [exact Hin |].
        rewrite Hid, Hst, !String.eqb_refl. reflexivity.
      + repeat split. exists [Select T_purchaseOrders id]. reflexivity. }
  destruct Hrun as (Hres & Hafter & Hstmts). rewrite Hafter.
  split; [exact Hres |]. split; [exact Hstmts |]. split; [| split].
  - intros r. unfold withoutOrder. simpl. rewrite filter_In, negb_true_iff.
    now rewrite String.eqb_neq.
  - intros r. unfold withoutOrder. simpl. rewrite filter_In, negb_true_iff.
    now rewrite String.eqb_neq.
  - repeat split.
Qed.

(** X5.  [deleteSalesTransactionSecure] succeeds exactly when the caller
    is [admin] or some stored sale has the given id and the caller's
    station.  The only error it raises is the authorization error, raised
    after the one ownership query and before any delete, with the store
    unchanged.  The same holds of [deletePurchaseOrderSecure]. *)
Theorem deleteSecure_succeeds_iff (id stationId : Id) (role : string) (d : DB) :
  (let out := deleteSalesTransactionSecure id stationId role d in
   (result out = Ok tt <->
    role = "admin" \/
    exists sale, In sale (salesTransactions d) /\ st_id sale = id /\
                 st_stationId sale = stationId) /\
   (forall e, result out = Fail e ->
      e = JsError "Unauthorized to delete this transaction" /\
      after out = d /\ statements out = [Select T_salesTransactions id])) /\
  (let out := deletePurchaseOrderSecure id stationId role d in
   (result out = Ok tt <->
    role = "admin" \/
    exists order, In order (purchaseOrders d) /\ po_id order = id /\
                  po_stationId order = stationId) /\
   (forall e, result out = Fail e ->
      e = JsError "Unauthorized to delete this order" /\
      after out = d /\ statements out = [Select T_purchaseOrders id])).
Proof.
  split.
  - intros out. split.
    + unfold out. rewrite deleteSalesTransactionSecure_run. cbv zeta.
      destruct (String.eqb role "admin") eqn:Hrole.
      * apply String.eqb_eq in Hrole. simpl. tauto.
      * apply String.eqb_neq in Hrole.
        destruct (filter _ (salesTransactions d)) as [| sale rest] eqn:Hsel; simpl.
        -- split; [discriminate |]. intros [Hadmin | (sale & Hin & Hid & Hst)];
             [contradiction |].
           exfalso. revert Hsel. apply filter_nonempty with (x := sale); [exact Hin |].
           rewrite Hid, Hst, !String.eqb_refl. reflexivity.
        -- split; [| reflexivity]. intros _. right. exists sale.
           assert (Hs : In sale (filter
                     (fun r => String.eqb (st_id r) id && String.eqb (st_stationId r) stationId)
                     (salesTransactions d))) by (rewrite Hsel; left; reflexivity).
           apply filter_In in Hs. destruct Hs as [Hin Hp].
           apply andb_prop in Hp. destruct Hp as [Hid Hst].
           apply String.eqb_eq in Hid, Hst. auto.
    + intros e He. unfold out in *.
      destruct (deleteSalesTransactionSecure_after id stationId role d)
        as [[Hok _] | (Hfail & Hafter & Hstmts)].
      * rewrite Hok in He. discriminate.
      * rewrite Hfail in He. injection He as <-. auto.
  - intros out. split.
    + unfold out. rewrite deletePurchaseOrderSecure_run. cbv zeta.
      destruct (String.eqb role "admin") eqn:Hrole.
      * apply String.eqb_eq in Hrole. simpl. tauto.
      * apply String.eqb_neq in Hrole.
        destruct (filter _ (purchaseOrders d)) as [| order rest] eqn:Hsel; simpl.
        -- split; [discriminate |]. intros [Hadmin | (order & Hin & Hid & Hst)];
             [contradiction |].
           exfalso. revert Hsel. apply filter_nonempty with (x := order); [exact Hin |].
           rewrite Hid, Hst, !String.eqb_refl. reflexivity.
        -- split; [| reflexivity]. intros _. right. exists order.
           assert (Hs : In order (filter
                     (fun r => String.eqb (po_id r) id && String.eqb (po_stationId r) stationId)
                     (purchaseOrders d))) by (rewrite Hsel; left; reflexivity).
           apply filter_In in Hs. destruct Hs as [Hin Hp].
           apply andb_prop in Hp. destruct Hp as [Hid Hst].
           apply String.eqb_eq in Hid, Hst. auto.
    + intros e He. unfold out in *.
      destruct (deletePurchaseOrderSecure_after id stationId role d)
        as [[Hok _] | (Hfail & Hafter & Hstmts)].
      * rewrite Hok in He. discriminate.
      * rewrite Hfail in He. injection He as <-. auto.
Qed.

Lemma getSalesTransaction_run (id : Id) (d : DB) :
  getSalesTransaction id d
  = mkOutcome (Ok (hd_error (filter (fun r => String.eqb (st_id r) id)
                                    (salesTransactions d))))
              d [Select T_salesTransactions id].
Proof. reflexivity. Qed.

Lemma getSalesTransactionItems_run (id : Id) (d : DB) :
  getSalesTransactionItems id d
  = mkOutcome (Ok (filter (fun r => String.eqb (sti_transactionId r) id)
                          (salesTransactionItems d)))
              d [Select T_salesTransactionItems id].
Proof. reflexivity. Qed.

(** X6.  After a delete that succeeded, the sale cannot be read any
    more: [getSalesTransaction] gives [undefined] and
    [getSalesTransactionItems] the empty list for the deleted id, while
    both give for every other id what they gave before the delete. *)
Theorem deleteSalesTransactionSecure_then_lookup
    (id stationId : Id) (role : string) (d : DB) :
  let out := deleteSalesTransactionSecure id stationId role d in
  result out = Ok tt ->
  result (getSalesTransaction id (after out)) = Ok None /\
  result (getSalesTransactionItems id (after out)) = Ok [] /\
  (forall other, other <> id ->
     result (getSalesTransaction other (after out))
     = result (getSalesTransaction other d) /\
     result (getSalesTransactionItems other (after out))
     = result (getSalesTransactionItems other d)).
Proof.
  intros out Hok. unfold out in *.
  destruct (deleteSalesTransactionSecure_after id stationId role d)
    as [[_ Hafter] | (Hfail & _)];
    [| rewrite Hfail in Hok; discriminate].
  rewrite Hafter, !getSalesTransaction_run, !getSalesTransactionItems_run.
  unfold withoutSale.
  cbn [result salesTransactions salesTransactionItems withSalesTransactions
       withSalesTransactionItems].
  split; [| split].
  - rewrite filter_filter_disjoint; [reflexivity |].
    intros x Hx. rewrite Hx. reflexivity.
  - rewrite filter_filter_disjoint; [reflexivity |].
    intros x Hx. rewrite Hx. reflexivity.
  - intros other Hother. rewrite !getSalesTransaction_run, !getSalesTransactionItems_run.
    cbn [result salesTransactions salesTransactionItems withSalesTransactions
         withSalesTransactionItems].
    split.
    + rewrite filter_filter_implied; [reflexivity |].
      intros x Hx. apply String.eqb_eq in Hx. apply negb_true_iff, String.eqb_neq.
      congruence.
    + rewrite filter_filter_implied; [reflexivity |].
      intros x Hx. apply String.eqb_eq in Hx. apply negb_true_iff, String.eqb_neq.
      congruence.
Qed.

(** X7.  Deleting the same sale again changes nothing; the second call
    returns normally for an [admin] and raises the authorization error
    for every other caller, the former owner included. *)
Theorem deleteSalesTransactionSecure_again
    (id stationId stationId' : Id) (role role' : string) (d : DB) :
  let once := deleteSalesTransactionSecure id stationId role d in
  result once = Ok tt ->
  let again := deleteSalesTransactionSecure id stationId' role' (after once) in
  after again = after once /\
  (role' = "admin" -> result again = Ok tt) /\
  (role' <> "admin" ->
   result again = Fail (JsError "Unauthorized to delete this transaction")).
Proof.
  intros once Hok again.
  pose proof (deleteSalesTransactionSecure_after id stationId role d) as Hrun.
  cbv zeta in Hrun.
  change (deleteSalesTransactionSecure id stationId role d) with once in Hrun.
  destruct Hrun as [[_ Hafter] | (Hfail & _)];
    [| rewrite Hfail in Hok; discriminate].
  assert (Hidem : withoutSale id (after once) = after once).
  { rewrite Hafter. unfold withoutSale.
    cbn [salesTransactions salesTransactionItems withSalesTransactions
         withSalesTransactionItems].
    rewrite !filter_filter_implied by auto. reflexivity. }
  assert (Hgone : filter (fun r => String.eqb (st_id r) id
                                   && String.eqb (st_stationId r) stationId')
                         (salesTransactions (after once)) = []).
  { rewrite Hafter. unfold withoutSale. cbn [salesTransactions withSalesTransactions].
    apply filter_filter_disjoint. intros x Hx. apply andb_prop in Hx.
    destruct Hx as [Hx _]. rewrite Hx. reflexivity. }
  unfold again. rewrite deleteSalesTransactionSecure_run. cbv zeta. rewrite Hgone.
  destruct (String.eqb role' "admin") eqn:Hrole; cbn [result after].
  - split; [exact Hidem |]. split; [reflexivity |].
    apply String.eqb_eq in Hrole. contradiction.
  - split; [reflexivity |]. split; [| reflexivity].
    intros ->. discriminate Hrole.
Qed.

Section IntegrityProperties.

Variable schema : Schema.

(** X8.  Referential integrity of the sales tables is kept: if every
    item row belongs to a stored header before the call, it does so after
    [createSalesTransaction], whatever its outcome, and after
    [deleteSalesTransactionSecure], whatever its outcome. *)
Theorem sales_references_kept (d : DB) :
  itemsReferenceSales d ->
  (forall insertTransaction items,
     itemsReferenceSales
       (after (createSalesTransaction schema insertTransaction items d))) /\
  (forall id stationId role,
     itemsReferenceSales (after (deleteSalesTransactionSecure id stationId role d))).
Proof.
  intros Hint. split.
  - intros insertTransaction items.
    destruct (result (createSalesTransaction schema insertTransaction items d))
      as [returned | e] eqn:Hres.
    + destruct (createSalesTransaction_succeeded schema insertTransaction items d
                  returned Hres) as (_ & rows & Hafter & Hrows).
      rewrite Hafter. intros item Hitem. simpl in Hitem |- *.
      apply in_app_or in Hitem. destruct Hitem as [Hold | Hnew].
      * destruct (Hint item Hold) as (sale & Hsale & Hid).
        exists sale. split; [apply in_or_app; left; exact Hsale | exact Hid].
      * exists (saleRow schema d insertTransaction). split.
        -- apply in_or_app. right. left. reflexivity.
        -- symmetry. exact (Forall2_storedAs_sale _ _ _ Hrows item Hnew).
    + unfold createSalesTransaction in Hres |- *.
      rewrite (transaction_rolls_back _ d e Hres). exact Hint.
  - intros id stationId role.
    destruct (deleteSalesTransactionSecure_after id stationId role d)
      as [[_ Hafter] | (_ & Hafter & _)]; rewrite Hafter; [| exact Hint].
    intros item Hitem. unfold withoutSale in *. simpl in Hitem |- *.
    apply filter_In in Hitem. destruct Hitem as [Hitem Hne].
    destruct (Hint item Hitem) as (sale & Hsale & Hid).
    exists sale. split; [| exact Hid].
    apply filter_In. split; [exact Hsale |]. rewrite Hid. exact Hne.
Qed.

End IntegrityProperties.

(** ** Stock and balance updates, further *)

Lemma map_unchanged {A} (f : A -> A) (l : list A) :
  (forall x, In x l -> f x = x) -> map f l = l.
Proof.
  intros H. rewrite <- (map_id l) at 2. apply map_ext_in. exact H.
Qed.

Lemma withTanks_same (d : DB) : withTanks d (tanks d) = d.
Proof. destruct d; reflexivity. Qed.

Lemma withCustomers_same (d : DB) : withCustomers d (customers d) = d.
Proof. destruct d; reflexivity. Qed.

(** X9.  An update of a row that is not there is no error:
    [updateTankStock] with an id no tank has, and [updateCustomerBalance]
    with an id no customer has, return [undefined] and leave the store as
    it is. *)
Theorem update_unknown_id (rw : Rewrites) (id : Id) (value : Numeric) (d : DB) :
  ((forall t, In t (tanks d) -> tank_id t <> id) ->
   result (updateTankStock rw id value d) = Ok None /\
   after (updateTankStock rw id value d) = d) /\
  ((forall c, In c (customers d) -> cust_id c <> id) ->
   result (updateCustomerBalance rw id value d) = Ok None /\
   after (updateCustomerBalance rw id value d) = d).
Proof.
  split; intros Hnone.
  - rewrite updateTankStock_run. cbv zeta.
    rewrite (filter_none (fun t => String.eqb (tank_id t) id)).
    2:{ intros t Ht. apply String.eqb_neq. auto. }
    rewrite filter_all.
    2:{ intros t Ht. apply negb_true_iff, String.eqb_neq. auto. }
    cbn [map forallb result after hd_error].
    rewrite place_nil, withTanks_same. split; reflexivity.
  - rewrite updateCustomerBalance_run. cbv zeta.
    rewrite (filter_none (fun c => String.eqb (cust_id c) id)).
    2:{ intros c Hc. apply String.eqb_neq. auto. }
    rewrite filter_all.
    2:{ intros c Hc. apply negb_true_iff, String.eqb_neq. auto. }
    cbn [map forallb result after hd_error].
    rewrite place_nil, withCustomers_same. split; reflexivity.
Qed.

(** What an accepted stock update leaves: the tanks of the store, those
    with the id rewritten, in some order, and the other tables as they
    were. *)
Lemma updateTankStock_accepted (rw : Rewrites) (id : Id) (q : Numeric) (d : DB) :
  (forall t, In t (tanks d) -> tank_id t = id ->
             acceptsTank rw d (setCurrentStock q t) = true) ->
  exists rows,
    after (updateTankStock rw id q d) = withTanks d rows /\
    Permutation rows
      (map (fun t => if String.eqb (tank_id t) id then setCurrentStock q t else t)
           (tanks d)).
Proof.
  intros Hacc. rewrite updateTankStock_run. cbv zeta.
  rewrite written_accepted.
  2:{ intros t Hin Hp. apply Hacc; [exact Hin | apply String.eqb_eq; exact Hp]. }
  eexists. split; [reflexivity |].
  exact (placed_perm rw (fun t => String.eqb (tank_id t) id) (setCurrentStock q) (tanks d)).
Qed.

(** X10.  On a store that takes the two stock values, stock updates
    compose as absolute writes: of two updates of the same tank only the
    later one shows, and updates of two different tanks leave the same
    rows in either order.  The order in which the store hands the tank
    rows back may differ. *)
Theorem updateTankStock_composes
    (rw : Rewrites) (id id' : Id) (q q' : Numeric) (d : DB) :
  (forall d' t, tank_currentStock t = q \/ tank_currentStock t = q' ->
                acceptsTank rw d' t = true) ->
  sameUpToTankOrder
    (after (updateTankStock rw id q' (after (updateTankStock rw id q d))))
    (after (updateTankStock rw id q' d)) /\
  (id <> id' ->
   sameUpToTankOrder
     (after (updateTankStock rw id' q' (after (updateTankStock rw id q d))))
     (after (updateTankStock rw id q (after (updateTankStock rw id' q' d))))).
Proof.
  intros Hacc.
  assert (Hstep : forall i v d0, v = q \/ v = q' ->
            exists rows,
              after (updateTankStock rw i v d0) = withTanks d0 rows /\
              Permutation rows
                (map (fun t => if String.eqb (tank_id t) i
                               then setCurrentStock v t else t) (tanks d0))).
  { intros i v d0 Hv. apply updateTankStock_accepted.
    intros t _ _. apply Hacc. simpl. exact Hv. }
  split.
  - destruct (Hstep id q d (or_introl eq_refl)) as (rows1 & -> & Hp1).
    destruct (Hstep id q' (withTanks d rows1) (or_intror eq_refl)) as (rows2 & -> & Hp2).
    destruct (Hstep id q' d (or_intror eq_refl)) as (rows3 & -> & Hp3).
    cbn [tanks withTanks] in Hp2.
    unfold sameUpToTankOrder.
    cbn [tanks salesTransactions salesTransactionItems purchaseOrders
         purchaseOrderItems customers withTanks].
    split; [| repeat split].
    eapply perm_trans; [exact Hp2 |].
    eapply perm_trans; [apply Permutation_map; exact Hp1 |].
    eapply perm_trans; [| apply Permutation_sym; exact Hp3].
    rewrite map_map. apply Permutation_refl'. apply map_ext. intros t.
    destruct (String.eqb (tank_id t) id) eqn:E; simpl; rewrite E; reflexivity.
  - intros Hne.
    destruct (Hstep id q d (or_introl eq_refl)) as (rows1 & -> & Hp1).
    destruct (Hstep id' q' (withTanks d rows1) (or_intror eq_refl)) as (rows2 & -> & Hp2).
    destruct (Hstep id' q' d (or_intror eq_refl)) as (rows3 & -> & Hp3).
    destruct (Hstep id q (withTanks d rows3) (or_introl eq_refl)) as (rows4 & -> & Hp4).
    cbn [tanks withTanks] in Hp2, Hp4.
    unfold sameUpToTankOrder.
    cbn [tanks salesTransactions salesTransactionItems purchaseOrders
         purchaseOrderItems customers withTanks].
    split; [| repeat split].
    eapply perm_trans; [exact Hp2 |].
    eapply perm_trans; [apply Permutation_map; exact Hp1 |].
    eapply perm_trans; [| apply Permutation_sym; exact Hp4].
    eapply perm_trans; [| apply Permutation_map, Permutation_sym; exact Hp3].
    rewrite !map_map. apply Permutation_refl'. apply map_ext. intros t.
    destruct (String.eqb (tank_id t) id) eqn:E, (String.eqb (tank_id t) id') eqn:E';
      simpl; rewrite ?E, ?E'; try reflexivity.
    apply String.eqb_eq in E, E'. congruence.
Qed.

Lemma total_updated_balance (id : Id) (amount B : Numeric) (l : list Customer) :
  NoDup (map cust_id l) ->
  option_map cust_outstandingAmount
    (hd_error (filter (fun c => String.eqb (cust_id c) id) l)) = Some B ->
  total (map cust_outstandingAmount
           (map (fun c => if String.eqb (cust_id c) id
                          then setOutstandingAmount amount c else c) l))
  = total (map cust_outstandingAmount l) - B + amount.
Proof.
  induction l as [| c l IH]; intros Hkey HB; simpl in *.
  - discriminate.
  - inversion Hkey as [| ? ? Hnotin Hkey']; subst.
    destruct (String.eqb (cust_id c) id) eqn:E; simpl in *.
    + injection HB as <-. apply String.eqb_eq in E.
      rewrite map_unchanged; [unfold total; lia |].
      intros x Hx. destruct (String.eqb (cust_id x) id) eqn:Ex; [| reflexivity].
      apply String.eqb_eq in Ex. exfalso. apply Hnotin. rewrite E, <- Ex.
      apply in_map. exact Hx.
    + specialize (IH Hkey' HB). unfold total in *. simpl. lia.
Qed.

Lemma total_perm (l l' : list Numeric) : Permutation l l' -> total l = total l'.
Proof.
  unfold total. induction 1; simpl; lia.
Qed.

Lemma filter_perm {A} (p : A -> bool) (l l' : list A) :
  Permutation l l' -> Permutation (filter p l) (filter p l').
Proof.
  induction 1 as [| x l l' _ IH | x y l | l l' l'' _ IH1 _ IH2]; simpl.
  - apply perm_nil.
  - destruct (p x); [apply perm_skip |]; exact IH.
  - destruct (p x), (p y); try apply Permutation_refl. apply perm_swap.
  - eapply perm_trans; eassumption.
Qed.

(** A key picks at most one row. *)
Lemma key_picks_one {A} (key : A -> Id) (k : Id) (l : list A) :
  NoDup (map key l) ->
  (List.length (filter (fun x => String.eqb (key x) k) l) <= 1)%nat.
Proof.
  induction l as [| x l IH]; intros Hkey; simpl.
  - lia.
  - inversion Hkey as [| ? ? Hnotin Hkey']; subst.
    destruct (String.eqb (key x) k) eqn:E.
    + apply String.eqb_eq in E. rewrite filter_none; [simpl; lia |].
      intros y Hy. apply String.eqb_neq. intros Hk. apply Hnotin.
      rewrite E, <- Hk. apply in_map. exact Hy.
    + exact (IH Hkey').
Qed.

Lemma perm_of_one {A} (l l' : list A) :
  (List.length l <= 1)%nat -> Permutation l l' -> l' = l.
Proof.
  intros Hlen Hperm. destruct l as [| x [| y rest]]; simpl in Hlen.
  - apply Permutation_nil. exact Hperm.
  - apply Permutation_length_1_inv. exact Hperm.
  - lia.
Qed.

Lemma balanceOf_other (rw : Rewrites) (id other : Id) (amount : Numeric) (d : DB) :
  NoDup (map cust_id (customers d)) ->
  other <> id ->
  balanceOf other (after (updateCustomerBalance rw id amount d)) = balanceOf other d.
Proof.
  intros Hkey Hother. rewrite updateCustomerBalance_run. cbv zeta.
  destruct (forallb _ _); [| reflexivity].
  unfold balanceOf. cbn [after customers withCustomers]. do 2 f_equal.
  pose proof (placed_perm rw (fun c => String.eqb (cust_id c) id)
                (setOutstandingAmount amount) (customers d)) as Hperm.
  cbv beta in Hperm.
  apply (filter_perm (fun c => String.eqb (cust_id c) other)) in Hperm.
  assert (Hsame : filter (fun c => String.eqb (cust_id c) other)
                    (map (fun c => if String.eqb (cust_id c) id
                                   then setOutstandingAmount amount c else c)
                         (customers d))
                  = filter (fun c => String.eqb (cust_id c) other) (customers d)).
  { clear Hperm Hkey.
    induction (customers d) as [| c l IH]; simpl; [reflexivity |].
    destruct (String.eqb (cust_id c) id) eqn:E; simpl.
    - apply String.eqb_eq in E.
      assert (String.eqb (cust_id c) other = false) as ->
          by (apply String.eqb_neq; congruence).
      exact IH.
    - destruct (String.eqb (cust_id c) other); [f_equal |]; exact IH. }
  rewrite Hsame in Hperm.
  apply perm_of_one; [| apply Permutation_sym; exact Hperm].
  apply key_picks_one. exact Hkey.
Qed.

(** X11.  When customer ids are unique and the store takes the amount,
    setting the balance of a customer from [B] to [amount] moves the
    total outstanding amount of the dashboard by [amount - B]; the
    balance of every other customer and the number of customers stay as
    they are. *)
Theorem updateCustomerBalance_outstanding
    (rw : Rewrites) (tz : Z) (now : Timestamp) (stationId id : Id)
    (amount B : Numeric) (d : DB) :
  (forall c, In c (customers d) -> cust_id c = id ->
             acceptsCustomer rw d (setOutstandingAmount amount c) = true) ->
  NoDup (map cust_id (customers d)) ->
  balanceOf id d = Some B ->
  let d' := after (updateCustomerBalance rw id amount d) in
  outstanding_totalOutstanding (getDashboardStats tz now stationId d')
  = outstanding_totalOutstanding (getDashboardStats tz now stationId d) - B + amount /\
  counts_customers (getDashboardStats tz now stationId d')
  = counts_customers (getDashboardStats tz now stationId d) /\
  (forall other, other <> id -> balanceOf other d' = balanceOf other d).
Proof.
  intros Hacc Hkey HB d'.
  pose proof (placed_perm rw (fun c => String.eqb (cust_id c) id)
                (setOutstandingAmount amount) (customers d)) as Hperm.
  cbv beta in Hperm.
  assert (Hd' : customers d'
                = place rw _
                    (filter (fun c => negb (String.eqb (cust_id c) id)) (customers d))
                    (map (setOutstandingAmount amount)
                       (filter (fun c => String.eqb (cust_id c) id) (customers d)))).
  { unfold d'. rewrite updateCustomerBalance_run. cbv zeta.
    rewrite written_accepted; [reflexivity |].
    intros c Hin Hp. apply Hacc; [exact Hin | apply String.eqb_eq; exact Hp]. }
  split; [| split].
  - unfold getDashboardStats. cbn [outstanding_totalOutstanding].
    rewrite !orZero_sqlSum, Hd'.
    rewrite (total_perm _ _ (Permutation_map cust_outstandingAmount Hperm)).
    apply total_updated_balance; assumption.
  - unfold getDashboardStats. cbn [counts_customers].
    rewrite Hd', (Permutation_length Hperm), length_map. reflexivity.
  - intros other Hother. apply balanceOf_other; assumption.
Qed.

(** ** The dashboard after a sale or an order *)

Lemma total_app (l1 l2 : list Numeric) : total (l1 ++ l2) = total l1 + total l2.
Proof.
  unfold total. induction l1 as [| x l1 IH]; simpl; [reflexivity | lia].
Qed.

Lemma total_filter_snoc {A} (p : A -> bool) (f : A -> Numeric) (l : list A) (x : A) :
  total (map f (filter p (l ++ [x])))
  = total (map f (filter p l)) + (if p x then f x else 0).
Proof.
  rewrite filter_app, map_app, total_app. simpl.
  destruct (p x); unfold total; simpl; lia.
Qed.

Lemma length_filter_snoc {A} (p : A -> bool) (l : list A) (x : A) :
  Z.of_nat (List.length (filter p (l ++ [x])))
  = Z.of_nat (List.length (filter p l)) + (if p x then 1 else 0).
Proof.
  rewrite filter_app, length_app. simpl. destruct (p x); simpl; lia.
Qed.

Section DashboardAfter.

Variable schema : Schema.

(** X12.  A sale that was created shows on the dashboard of its own
    station, if its date is not before the start of the current day, with
    the [totalAmount] of its header, whatever its items add up to: the
    total of today's sales grows by that amount and their count by one.
    On every other dashboard, and for an earlier date, today's sales stay
    as they were; payables and outstanding amounts never move. *)
Theorem dashboard_after_sale
    (tz : Z) (now : Timestamp) (stationId : Id)
    (insertTransaction : InsertSalesTransaction)
    (items : JsValue InsertSalesTransactionItem) (d : DB) (returned : SalesTransaction) :
  let out := createSalesTransaction schema insertTransaction items d in
  result out = Ok returned ->
  let before := getDashboardStats tz now stationId d in
  let stats := getDashboardStats tz now stationId (after out) in
  let counted := String.eqb (ist_stationId insertTransaction) stationId
                 && (startOfLocalDay tz now <=? ist_transactionDate insertTransaction) in
  totalAmount (todaysSales stats)
  = totalAmount (todaysSales before)
    + (if counted then ist_totalAmount insertTransaction else 0) /\
  count (todaysSales stats)
  = count (todaysSales before) + (if counted then 1 else 0) /\
  payables_totalPayable stats = payables_totalPayable before /\
  outstanding_totalOutstanding stats = outstanding_totalOutstanding before.
Proof.
  intros out Hok before stats counted.
  destruct (createSalesTransaction_succeeded schema insertTransaction items d returned Hok)
    as (_ & rows & Hafter & _).
  unfold stats, before, out. rewrite Hafter. unfold getDashboardStats.
  cbn [todaysSales totalAmount count payables_totalPayable outstanding_totalOutstanding
       salesTransactions purchaseOrders customers withSalesTransactions
       withSalesTransactionItems].
  rewrite !orZero_sqlSum, total_filter_snoc, length_filter_snoc.
  repeat split.
Qed.

(** X13.  A purchase order that was created adds its [totalAmount] to
    the payables of the dashboard exactly when it is stored as [pending],
    and it does so on the dashboard of every station, not only its own;
    today's sales and the outstanding amounts stay as they were. *)
Theorem dashboard_after_purchase_order
    (tz : Z) (now : Timestamp) (stationId : Id)
    (insertOrder : InsertPurchaseOrder)
    (items : list InsertPurchaseOrderItem) (d : DB) (returned : PurchaseOrder) :
  let out := createPurchaseOrder schema insertOrder items d in
  result out = Ok returned ->
  let before := getDashboardStats tz now stationId d in
  let stats := getDashboardStats tz now stationId (after out) in
  payables_totalPayable stats
  = payables_totalPayable before
    + (if String.eqb (po_status returned) "pending"
       then ipo_totalAmount insertOrder else 0) /\
  todaysSales stats = todaysSales before /\
  outstanding_totalOutstanding stats = outstanding_totalOutstanding before.
Proof.
  intros out Hok before stats.
  destruct (createPurchaseOrder_succeeded schema insertOrder items d returned Hok)
    as (Hret & rows & Hafter & _).
  cbv zeta in Hret. subst returned.
  unfold stats, before, out. rewrite Hafter. unfold getDashboardStats.
  cbn [todaysSales payables_totalPayable outstanding_totalOutstanding
       salesTransactions purchaseOrders customers withPurchaseOrders
       withPurchaseOrderItems].
  rewrite !orZero_sqlSum, total_filter_snoc.
  repeat split.
Qed.

End DashboardAfter.

(** ** Ordered queries *)

Lemma StronglySorted_firstn {A} (R : A -> A -> Prop) (n : nat) (l : list A) :
  StronglySorted R l -> StronglySorted R (firstn n l).
Proof.
  intros H. revert n. induction H as [| x l Hsorted IH Hall]; intros [| n]; simpl;
    try constructor.
  - apply IH.
  - apply Forall_forall. intros y Hy. rewrite Forall_forall in Hall.
    apply Hall. rewrite <- (firstn_skipn n l). apply in_or_app. left. exact Hy.
Qed.

Lemma StronglySorted_app_cross {A} (R : A -> A -> Prop) (l1 l2 : list A) :
  StronglySorted R (l1 ++ l2) ->
  forall a b, In a l1 -> In b l2 -> R a b.
Proof.
  induction l1 as [| x l1 IH]; simpl; intros H a b Ha Hb.
  - contradiction.
  - inversion H as [| ? ? Hrest Hall]; subst. destruct Ha as [<- | Ha].
    + rewrite Forall_forall in Hall. apply Hall. apply in_or_app. right. exact Hb.
    + exact (IH Hrest a b Ha Hb).
Qed.

(** The first [n] rows of an ordered query are the [n] most recent. *)
Lemma most_recent_first (ob : OrderBy) {A} (key : A -> Timestamp) (n : nat) (l : list A) :
  let returned := firstn n (sortDesc ob A key l) in
  let rest := skipn n (sortDesc ob A key l) in
  Permutation l (returned ++ rest) /\
  StronglySorted (fun a b => key b <= key a) returned /\
  (forall r r', In r returned -> In r' rest -> key r' <= key r) /\
  List.length returned = Nat.min n (List.length l).
Proof.
  intros returned rest. unfold returned, rest.
  pose proof (sortDesc_perm ob A key l) as Hperm.
  pose proof (sortDesc_sorted ob A key l) as Hsorted.
  split; [| split; [| split]].
  - rewrite firstn_skipn. exact Hperm.
  - apply StronglySorted_firstn. exact Hsorted.
  - intros r r' Hr Hr'. rewrite <- (firstn_skipn n) in Hsorted.
    exact (StronglySorted_app_cross _ _ _ Hsorted r r' Hr Hr').
  - rewrite length_firstn, (Permutation_length Hperm). reflexivity.
Qed.

(** X14.  [getSalesTransactions(stationId, limit)] changes nothing and
    returns sales of the station only, most recent first.  With a limit
    [n > 0] it returns the [n] most recent of them (all of them when
    there are fewer): every sale left out is at most as recent as every
    sale returned.  With no limit, and with the limit [0], it returns
    them all. *)
Theorem getSalesTransactions_most_recent
    (ob : OrderBy) (stationId : Id) (limit : option N) (d : DB) :
  let mine := filter (fun r => String.eqb (st_stationId r) stationId)
                     (salesTransactions d) in
  let out := getSalesTransactions ob stationId limit d in
  after out = d /\
  exists returned rest,
    result out = Ok returned /\
    Permutation mine (returned ++ rest) /\
    StronglySorted (fun a b => st_transactionDate b <= st_transactionDate a) returned /\
    (forall r r', In r returned -> In r' rest ->
                  st_transactionDate r' <= st_transactionDate r) /\
    List.length returned
    = match limit with
      | Some n => if (n =? 0)%N then List.length mine
                  else Nat.min (N.to_nat n) (List.length mine)
      | None => List.length mine
      end /\
    (limit = None \/ limit = Some 0%N -> rest = []).
Proof.
  intros mine out. split; [reflexivity |].
  assert (Hall : exists returned rest,
             returned = sortDesc ob _ st_transactionDate mine /\ rest = [] /\
             Permutation mine (returned ++ rest) /\
             StronglySorted (fun a b => st_transactionDate b <= st_transactionDate a)
                            returned /\
             List.length returned = List.length mine).
  { exists (sortDesc ob _ st_transactionDate mine), []. repeat split.
    - rewrite app_nil_r. apply sortDesc_perm.
    - apply sortDesc_sorted.
    - symmetry. apply Permutation_length, sortDesc_perm. }
  destruct Hall as (all & none & Hall & Hnone & Hperm & Hsorted & Hlen).
  destruct limit as [n |]; [destruct (n =? 0)%N eqn:Hzero |].
  - exists all, none. subst all none. unfold out, getSalesTransactions.
    cbn. rewrite Hzero. repeat split; auto. intros r r' _ [].
  - destruct (most_recent_first ob st_transactionDate (N.to_nat n) mine)
      as (Hp & Hs & Hcross & Hl).
    eexists. eexists. unfold out, getSalesTransactions. cbn. rewrite Hzero.
    split; [reflexivity |]. split; [exact Hp |]. split; [exact Hs |].
    split; [exact Hcross |]. split; [exact Hl |].
    intros [Hlim | Hlim]; [discriminate |].
    injection Hlim as ->. discriminate Hzero.
  - exists all, none. subst all none. unfold out, getSalesTransactions.
    cbn. repeat split; auto. intros r r' _ [].
Qed.

(** X15.  The [recentPOs] of the dashboard are at most five purchase
    orders, most recent first, taken from the orders of all stations:
    every order left out is at most as recent as every order shown. *)
Theorem recentPOs_most_recent (ob : OrderBy) (d : DB) :
  exists rest,
    Permutation (purchaseOrders d) (recentPOs ob d ++ rest) /\
    StronglySorted (fun a b => po_orderDate b <= po_orderDate a) (recentPOs ob d) /\
    (forall r r', In r (recentPOs ob d) -> In r' rest ->
                  po_orderDate r' <= po_orderDate r) /\
    List.length (recentPOs ob d) = Nat.min 5 (List.length (purchaseOrders d)).
Proof.
  exists (skipn 5 (sortDesc ob _ po_orderDate (purchaseOrders d))).
  exact (most_recent_first ob po_orderDate 5 (purchaseOrders d)).
Qed.

(** ** A sale as a sequence of single inserts *)

Section SingleInserts.

Variable schema : Schema.

Lemma createSalesTransactionItem_run (item : InsertSalesTransactionItem) (d : DB) :
  createSalesTransactionItem schema item d =
  let row := saleItemRow schema d item in
  if acceptsSaleItem schema d row
  then mkOutcome (Ok row)
         (withSalesTransactionItems d (salesTransactionItems d ++ [row]))
         [Insert T_salesTransactionItems]
  else mkOutcome (Fail (DbError T_salesTransactionItems)) d
         [Insert T_salesTransactionItems].
Proof.
  unfold createSalesTransactionItem, autocommit, transaction, bind, send, getStore,
    putStore, throw, ret. cbn [store issued app].
  destruct (acceptsSaleItem schema d (saleItemRow schema d item)); reflexivity.
Qed.

Lemma forOf_saleItems_store (tid : Id) (items : list InsertSalesTransactionItem) :
  forall s : TxState,
    saleItemsAccepted schema tid (store s) items = true ->
    store (snd (forOf items (fun item =>
                  insertSalesTransactionItem schema (withTransactionId item tid)) s))
    = singleInserts schema tid items (store s).
Proof.
  induction items as [| item rest IH]; intros [d q] Hacc.
  - reflexivity.
  - simpl in Hacc. apply andb_prop in Hacc. destruct Hacc as [Hrow Hrest].
    rewrite forOf_cons, insertSalesTransactionItem_run. cbn [store issued]. cbv zeta.
    rewrite Hrow. unfold singleInserts. cbn [fold_left].
    rewrite createSalesTransactionItem_run. cbv zeta. rewrite Hrow. cbn [after].
    exact (IH (mkTxState _ _) Hrest).
Qed.

End SingleInserts.

Section SingleInsertsCompared.

Variable schema : Schema.

Lemma singleInserts_keeps_headers (tid : Id) (items : list InsertSalesTransactionItem) :
  forall d, salesTransactions (singleInserts schema tid items d) = salesTransactions d.
Proof.
  unfold singleInserts. induction items as [| item rest IH]; intros d; simpl.
  - reflexivity.
  - rewrite IH, createSalesTransactionItem_run. cbv zeta.
    destruct (acceptsSaleItem schema d _); reflexivity.
Qed.

(** X16.  A sale that was created is stored exactly as by a call of
    [createSalesTransaction] without items followed by one
    [createSalesTransactionItem] per item, each carrying the id of the
    header.  The two differ when an item is rejected: the one call
    leaves the store as it was, the single calls leave the header
    behind. *)
Theorem createSalesTransaction_vs_single_inserts
    (insertTransaction : InsertSalesTransaction)
    (items : list InsertSalesTransactionItem) (d : DB) :
  let header := saleRow schema d insertTransaction in
  let d1 := withSalesTransactions d (salesTransactions d ++ [header]) in
  let whole := createSalesTransaction schema insertTransaction (JsArray items) d in
  let alone := createSalesTransaction schema insertTransaction (JsArray []) d in
  let oneByOne := singleInserts schema (st_id header) items (after alone) in
  acceptsSale schema d header = true ->
  result alone = Ok header /\
  (saleItemsAccepted schema (st_id header) d1 items = true ->
   result whole = Ok header /\ after whole = oneByOne) /\
  (saleItemsAccepted schema (st_id header) d1 items = false ->
   after whole = d /\
   salesTransactions oneByOne = salesTransactions d ++ [header]).
Proof.
  intros header d1 whole alone oneByOne Hhdr.
  assert (Halone : alone = mkOutcome (Ok header) d1 [Insert T_salesTransactions]).
  { destruct (createSalesTransaction_committed schema insertTransaction (JsArray []) d
                Hhdr eq_refl) as (rows & Hrun & Hrows).
    inversion Hrows; subst. unfold alone. rewrite Hrun. cbn [arrayOrEmpty List.length repeat].
    rewrite app_nil_r.
    change (salesTransactionItems d) with (salesTransactionItems d1).
    rewrite withSalesTransactionItems_same. reflexivity. }
  split; [rewrite Halone; reflexivity |]. split.
  - intros Hitems.
    destruct (createSalesTransaction_committed schema insertTransaction (JsArray items) d
                Hhdr Hitems) as (rows & Hrun & _).
    split; [unfold whole; rewrite Hrun; reflexivity |].
    unfold oneByOne. rewrite Halone. cbn [after].
    pose proof (forOf_saleItems_store schema (st_id header) items
                  (mkTxState d1 [Insert T_salesTransactions]) Hitems) as Hstore.
    cbn [store] in Hstore. rewrite <- Hstore.
    unfold whole, createSalesTransaction, transaction, bind.
    rewrite insertSalesTransaction_run. cbn [store issued app arrayOrEmpty]. cbv zeta.
    fold header. rewrite Hhdr. fold d1.
    destruct (forOf_saleItems_accepted schema (st_id header) items
                (mkTxState d1 [Insert T_salesTransactions]) Hitems) as (rows' & Hfor & _).
    rewrite Hfor. reflexivity.
  - intros Hitems. split.
    + apply transaction_rolls_back with (e := DbError T_salesTransactionItems).
      exact (createSalesTransaction_item_rejected schema insertTransaction
               (JsArray items) d Hhdr Hitems).
    + unfold oneByOne. rewrite singleInserts_keeps_headers, Halone. reflexivity.
Qed.

End SingleInsertsCompared.

(** ** The route guard *)

Lemma includes_In (routes : list string) (x : string) :
  AuthGuard.includes routes x = true <-> In x routes.
Proof.
  unfold AuthGuard.includes. rewrite existsb_exists. split.
  - intros (y & Hy & Heq). apply String.eqb_eq in Heq. subst. exact Hy.
  - intros H. exists x. split; [exact H | apply String.eqb_refl].
Qed.

Lemma allowedBy_incl (small large : list string) (location : string) :
  incl small large ->
  AuthGuard.allowedBy small location = true ->
  AuthGuard.allowedBy large location = true.
Proof.
  unfold AuthGuard.allowedBy. intros Hincl.
  rewrite !orb_true_iff, !includes_In, !existsb_exists.
  intros [[H | H] | (route & Hin & Hp)]; auto.
  right. exists route. auto.
Qed.

(** X18.  The roles are ordered: whatever location a cashier is allowed
    a manager is allowed too, and an admin is allowed every location; so
    the guard never sends an admin home, and sends a manager home only
    from where it sends a cashier home. *)
Theorem role_hierarchy (location : string) :
  (AuthGuard.isAllowed "cashier" location = Ok true ->
   AuthGuard.isAllowed "manager" location = Ok true) /\
  AuthGuard.isAllowed "admin" location = Ok true /\
  AuthGuard.redirectsHome "admin" location = Ok false /\
  (AuthGuard.redirectsHome "manager" location = Ok true ->
   AuthGuard.redirectsHome "cashier" location = Ok true).
Proof.
  assert (Hcashier : exists routes,
             AuthGuard.allowedRoutes "cashier" = JsArray routes /\
             incl routes ["/"; "/profile"; "/pos"; "/sales-history"; "/customers"])
    by (eexists; split; [reflexivity | apply incl_refl]).
  destruct Hcashier as (cashier & Hc & Hcincl).
  assert (Hmanager : exists routes,
             AuthGuard.allowedRoutes "manager" = JsArray routes /\
             incl ["/"; "/profile"; "/pos"; "/sales-history"; "/customers"] routes).
  { eexists. split; [reflexivity |].
    intros x [<- | [<- | [<- | [<- | [<- | []]]]]]; simpl; tauto. }
  destruct Hmanager as (manager & Hm & Hmincl).
  assert (Hcm : AuthGuard.allowedBy cashier location = true ->
                AuthGuard.allowedBy manager location = true).
  { apply allowedBy_incl. intros x Hx. apply Hmincl, Hcincl. exact Hx. }
  assert (Hadmin : AuthGuard.isAllowed "admin" location = Ok true) by reflexivity.
  unfold AuthGuard.redirectsHome. rewrite Hadmin.
  unfold AuthGuard.isAllowed. rewrite Hc, Hm.
  split; [| split; [| split]].
  - intros [= H]. rewrite (Hcm H). reflexivity.
  - reflexivity.
  - reflexivity.
  - destruct (AuthGuard.allowedBy cashier location) eqn:Hcl.
    + rewrite (Hcm eq_refl). discriminate.
    + destruct (AuthGuard.allowedBy manager location); simpl; [discriminate | auto].
Qed.

(** ** The rows of the purchase-order form *)

Lemma filterIndexed_beyond {A} (index : nat) (xs : list A) :
  forall i, (index < i)%nat ->
    OrderForm.filterIndexed (fun _ j => negb (j =? index)%nat) i xs = xs.
Proof.
  induction xs as [| x rest IH]; intros i Hi; simpl; [reflexivity |].
  assert ((i =? index)%nat = false) as -> by (apply Nat.eqb_neq; lia).
  simpl. rewrite IH by lia. reflexivity.
Qed.

Lemma filterIndexed_remove {A} (xs : list A) :
  forall index i,
    OrderForm.filterIndexed (fun _ j => negb (j =? i + index)%nat) i xs
    = firstn index xs ++ skipn (S index) xs.
Proof.
  induction xs as [| x rest IH]; intros index i.
  - destruct index; reflexivity.
  - destruct index as [| index].
    + cbn [OrderForm.filterIndexed]. rewrite Nat.add_0_r, Nat.eqb_refl. simpl.
      apply filterIndexed_beyond. lia.
    + cbn [OrderForm.filterIndexed firstn skipn app].
      assert ((i =? i + S index)%nat = false) as -> by (apply Nat.eqb_neq; lia).
      simpl. f_equal. replace (i + S index)%nat with (S i + index)%nat by lia.
      apply IH.
Qed.

Lemma applyEdit_nonempty (orderItems : list OrderForm.OrderItemInput) (e : OrderForm.Edit) :
  orderItems <> [] -> OrderForm.applyEdit orderItems e <> [].
Proof.
  intros Hne. destruct e as [| index]; simpl.
  - unfold OrderForm.addOrderItem. intros H. apply app_eq_nil in H.
    destruct H as [_ H]. discriminate.
  - unfold OrderForm.removeOrderItem.
    destruct (1 <? List.length orderItems)%nat eqn:Hlen; [| exact Hne].
    apply Nat.ltb_lt in Hlen.
    pose proof (filterIndexed_remove orderItems index 0) as Hrm. cbn [Nat.add] in Hrm.
    rewrite Hrm.
    intros H. apply (f_equal (@List.length _)) in H.
    rewrite length_app, length_firstn, length_skipn in H. simpl in H. lia.
Qed.

(** X19.  [removeOrderItem(index)] takes out the row at [index] and
    keeps the others in order when the form has more than one row; it
    does nothing on a form with a single row, or for an index past the
    last row.  So whatever rows are added and removed, a form that has a
    row keeps at least one. *)
Theorem removeOrderItem_keeps_a_row
    (index : nat) (orderItems : list OrderForm.OrderItemInput) :
  ((List.length orderItems <= 1)%nat ->
   OrderForm.removeOrderItem index orderItems = orderItems) /\
  ((1 < List.length orderItems)%nat ->
   OrderForm.removeOrderItem index orderItems
   = firstn index orderItems ++ skipn (S index) orderItems) /\
  ((1 < List.length orderItems)%nat -> (index < List.length orderItems)%nat ->
   S (List.length (OrderForm.removeOrderItem index orderItems))
   = List.length orderItems) /\
  ((List.length orderItems <= index)%nat ->
   OrderForm.removeOrderItem index orderItems = orderItems) /\
  (orderItems <> [] ->
   forall edits, fold_left OrderForm.applyEdit edits orderItems <> []).
Proof.
  assert (Hmany : (1 < List.length orderItems)%nat ->
                  OrderForm.removeOrderItem index orderItems
                  = firstn index orderItems ++ skipn (S index) orderItems).
  { intros Hlen. unfold OrderForm.removeOrderItem.
    apply Nat.ltb_lt in Hlen. rewrite Hlen.
    exact (filterIndexed_remove orderItems index 0). }
  assert (Hone : (List.length orderItems <= 1)%nat ->
                 OrderForm.removeOrderItem index orderItems = orderItems).
  { intros Hlen. unfold OrderForm.removeOrderItem.
    assert ((1 <? List.length orderItems)%nat = false) as ->
        by (apply Nat.ltb_ge; exact Hlen).
    reflexivity. }
  split; [exact Hone |]. split; [exact Hmany |]. split; [| split].
  - intros Hlen Hidx. rewrite (Hmany Hlen), length_app, length_firstn, length_skipn. lia.
  - intros Hpast. destruct (Nat.le_gt_cases (List.length orderItems) 1) as [Hle | Hgt].
    + exact (Hone Hle).
    + rewrite (Hmany Hgt), firstn_all2 by exact Hpast.
      rewrite skipn_all2 by lia. apply app_nil_r.
  - intros Hne edits. clear Hmany Hone. revert orderItems Hne.
    induction edits as [| e edits IH]; intros orderItems Hne; simpl.
    + exact Hne.
    + apply IH, applyEdit_nonempty. exact Hne.
Qed.

(** ** The further operations run on the demo store *)

Lemma demo_sale_id_new :
  forall r, In r (salesTransactions Demo.ledger) ->
            st_id r <> st_id (saleRow Demo.schema Demo.ledger Demo.cashSale).
Proof. intros r [<- | []]. discriminate. Defined.

Lemma demo_sale_id_unreferenced :
  forall r, In r (salesTransactionItems Demo.ledger) ->
            sti_transactionId r <> st_id (saleRow Demo.schema Demo.ledger Demo.cashSale).
Proof. intros r [<- | [<- | []]]; discriminate. Defined.

Lemma demo_order_id_new :
  forall r, In r (purchaseOrders Demo.ledger) ->
            po_id r <> po_id (orderRow Demo.schema Demo.ledger (Demo.order None)).
Proof. intros r [<- | []]. discriminate. Defined.

Lemma demo_order_id_unreferenced :
  forall r, In r (purchaseOrderItems Demo.ledger) ->
            poi_orderId r <> po_id (orderRow Demo.schema Demo.ledger (Demo.order None)).
Proof. intros r [<- | []]. discriminate. Defined.



Lemma create_then_delete_restores_witness :
  after (deleteSalesTransactionSecure "id-iiiii" "station-1" "cashier"
           (after (createSalesTransaction Demo.schema Demo.cashSale
                     (JsArray [Demo.petrol; Demo.diesel]) Demo.ledger)))
  = Demo.ledger /\
  after (deletePurchaseOrderSecure "id-iiiii" "station-9" "admin"
           (after (createPurchaseOrder Demo.schema (Demo.order None) [Demo.orderLine]
                     Demo.ledger)))
  = Demo.ledger.
Proof.
  split.
  - destruct (create_then_delete_restores Demo.schema "station-1" "cashier" Demo.ledger)
      as [Hsale _].
    exact (proj2 (Hsale Demo.cashSale [Demo.petrol; Demo.diesel]
                    (saleRow Demo.schema Demo.ledger Demo.cashSale)
                    eq_refl demo_sale_id_new demo_sale_id_unreferenced
                    (or_intror eq_refl))).
  - destruct (create_then_delete_restores Demo.schema "station-9" "admin" Demo.ledger)
      as [_ Horder].
    exact (proj2 (Horder (Demo.order None) [Demo.orderLine]
                    (orderRow Demo.schema Demo.ledger (Demo.order None))
                    eq_refl demo_order_id_new demo_order_id_unreferenced
                    (or_introl eq_refl))).
Defined.

Lemma deletePurchaseOrderSecure_cascades_witness :
  let out := deletePurchaseOrderSecure "po-1" "station-2" "manager" Demo.ledger in
  result out = Ok tt /\
  (forall r, In r (purchaseOrderItems (after out))
             <-> In r (purchaseOrderItems Demo.ledger) /\ poi_orderId r <> "po-1").
Proof.
  intros out.
  destruct (deletePurchaseOrderSecure_cascades "po-1" "station-2" "manager" Demo.ledger
              (mkPurchaseOrder "po-1" "station-2" "supplier-1" "PO00000001"
                 "pending" 500000 1000)
              (or_introl eq_refl) eq_refl (or_intror eq_refl))
    as (Hres & _ & _ & Hitems & _).
  split; [exact Hres | exact Hitems].
Defined.

Lemma deleteSalesTransactionSecure_then_lookup_witness :
  let out := deleteSalesTransactionSecure "sale-1" "station-1" "cashier" Demo.ledger in
  result (getSalesTransaction "sale-1" (after out)) = Ok None /\
  result (getSalesTransactionItems "sale-1" (after out)) = Ok [].
Proof.
  intros out.
  destruct (deleteSalesTransactionSecure_then_lookup "sale-1" "station-1" "cashier"
              Demo.ledger eq_refl) as (Hhdr & Hitems & _).
  split; [exact Hhdr | exact Hitems].
Defined.

Lemma deleteSalesTransactionSecure_again_witness :
  let once := deleteSalesTransactionSecure "sale-1" "station-1" "cashier" Demo.ledger in
  result (deleteSalesTransactionSecure "sale-1" "station-1" "cashier" (after once))
  = Fail (JsError "Unauthorized to delete this transaction").
Proof.
  intros once.
  destruct (deleteSalesTransactionSecure_again "sale-1" "station-1" "station-1"
              "cashier" "cashier" Demo.ledger eq_refl) as (_ & _ & Hdenied).
  apply Hdenied. discriminate.
Defined.

Lemma demo_references : itemsReferenceSales Demo.ledger.
Proof.
  intros item [<- | [<- | []]];
    (eexists; split; [left; reflexivity | reflexivity]).
Defined.

Lemma sales_references_kept_witness :
  itemsReferenceSales
    (after (createSalesTransaction Demo.schema Demo.cashSale
              (JsArray [Demo.petrol; Demo.diesel]) Demo.ledger)) /\
  itemsReferenceSales
    (after (deleteSalesTransactionSecure "sale-1" "station-1" "admin" Demo.ledger)).
Proof.
  destruct (sales_references_kept Demo.schema Demo.ledger demo_references)
    as [Hcreate Hdelete].
  split; [apply Hcreate | apply Hdelete].
Defined.

Lemma update_unknown_id_witness :
  (result (updateTankStock DemoRewrites.bounded "tank-9" 100 Demo.ledger) = Ok None /\
   after (updateTankStock DemoRewrites.bounded "tank-9" 100 Demo.ledger) = Demo.ledger) /\
  (result (updateCustomerBalance DemoRewrites.bounded "cust-9" 100 Demo.ledger) = Ok None /\
   after (updateCustomerBalance DemoRewrites.bounded "cust-9" 100 Demo.ledger)
   = Demo.ledger).
Proof.
  destruct (update_unknown_id DemoRewrites.bounded "tank-9" 100 Demo.ledger)
    as [Htank _].
  destruct (update_unknown_id DemoRewrites.bounded "cust-9" 100 Demo.ledger)
    as [_ Hcust].
  split.
  - apply Htank. intros t [<- | []]. discriminate.
  - apply Hcust. intros c [<- | []]. discriminate.
Defined.

(** On the store with the two tanks, setting the petrol tank to 5.00
    and the diesel tank to 7.00 leaves the same two rows in either
    order of the calls, and two settings of the petrol tank leave the
    later one. *)
Lemma updateTankStock_composes_witness :
  sameUpToTankOrder
    (after (updateTankStock DemoRewrites.bounded "tank-2" 700
              (after (updateTankStock DemoRewrites.bounded "tank-1" 500
                        DemoRewrites.twoTanks))))
    (after (updateTankStock DemoRewrites.bounded "tank-1" 500
              (after (updateTankStock DemoRewrites.bounded "tank-2" 700
                        DemoRewrites.twoTanks)))) /\
  sameUpToTankOrder
    (after (updateTankStock DemoRewrites.bounded "tank-1" 700
              (after (updateTankStock DemoRewrites.bounded "tank-1" 500
                        DemoRewrites.twoTanks))))
    (after (updateTankStock DemoRewrites.bounded "tank-1" 700 DemoRewrites.twoTanks)).
Proof.
  assert (Hfit : forall (d' : DB) (t : Tank),
             tank_currentStock t = 500 \/ tank_currentStock t = 700 ->
             acceptsTank DemoRewrites.bounded d' t = true).
  { intros d' t [H | H]; simpl; rewrite H; reflexivity. }
  split.
  - destruct (updateTankStock_composes DemoRewrites.bounded "tank-1" "tank-2" 500 700
                DemoRewrites.twoTanks Hfit) as [_ Hcomm].
    apply Hcomm. discriminate.
  - destruct (updateTankStock_composes DemoRewrites.bounded "tank-1" "tank-1" 500 700
                DemoRewrites.twoTanks Hfit) as [Hlast _].
    exact Hlast.
Defined.

Lemma demo_customer_keys : NoDup (map cust_id (customers Demo.ledger)).
Proof. repeat constructor. simpl. tauto. Defined.

Lemma updateCustomerBalance_outstanding_witness :
  outstanding_totalOutstanding
    (getDashboardStats 0 Demo.noon "station-1"
       (after (updateCustomerBalance DemoRewrites.bounded "cust-1" 31000 Demo.ledger)))
  = outstanding_totalOutstanding (getDashboardStats 0 Demo.noon "station-1" Demo.ledger)
    - 1000 + 31000.
Proof.
  destruct (updateCustomerBalance_outstanding DemoRewrites.bounded 0 Demo.noon
              "station-1" "cust-1" 31000 1000 Demo.ledger
              (fun c _ _ => eq_refl) demo_customer_keys eq_refl) as [H _].
  exact H.
Defined.

Lemma dashboard_after_sale_witness :
  totalAmount (todaysSales
    (getDashboardStats 0 500 "station-1"
       (after (createSalesTransaction Demo.schema Demo.cashSale
                 (JsArray [Demo.petrol]) Demo.ledger))))
  = totalAmount (todaysSales (getDashboardStats 0 500 "station-1" Demo.ledger)) + 75000.
Proof.
  destruct (dashboard_after_sale Demo.schema 0 500 "station-1" Demo.cashSale
              (JsArray [Demo.petrol]) Demo.ledger
              (saleRow Demo.schema Demo.ledger Demo.cashSale) eq_refl) as [H _].
  exact H.
Defined.

Lemma dashboard_after_purchase_order_witness :
  payables_totalPayable
    (getDashboardStats 0 500 "station-2"
       (after (createPurchaseOrder Demo.schema (Demo.order None) [Demo.orderLine]
                 Demo.ledger)))
  = payables_totalPayable (getDashboardStats 0 500 "station-2" Demo.ledger) + 500000.
Proof.
  destruct (dashboard_after_purchase_order Demo.schema 0 500 "station-2"
              (Demo.order None) [Demo.orderLine] Demo.ledger
              (orderRow Demo.schema Demo.ledger (Demo.order None)) eq_refl) as [H _].
  exact H.
Defined.

Lemma getSalesTransactions_most_recent_witness :
  exists returned rest,
    result (getSalesTransactions DemoOrder.orderBy "station-1" (Some 2%N) Demo.threeDays)
    = Ok returned /\
    List.length returned = 2%nat /\
    (forall r r', In r returned -> In r' rest ->
                  st_transactionDate r' <= st_transactionDate r).
Proof.
  destruct (getSalesTransactions_most_recent DemoOrder.orderBy "station-1" (Some 2%N)
              Demo.threeDays) as (_ & returned & rest & Hres & _ & _ & Hcross & Hlen & _).
  exists returned, rest. split; [exact Hres |]. split; [exact Hlen | exact Hcross].
Defined.

Lemma createSalesTransaction_vs_single_inserts_witness :
  after (createSalesTransaction Demo.schema Demo.cashSale
           (JsArray [Demo.petrol; Demo.badItem]) Demo.ledger) = Demo.ledger /\
  List.length
    (salesTransactions
       (singleInserts Demo.schema "id-iiiii" [Demo.petrol; Demo.badItem]
          (after (createSalesTransaction Demo.schema Demo.cashSale (JsArray [])
                    Demo.ledger))))
  = 2%nat.
Proof.
  destruct (createSalesTransaction_vs_single_inserts Demo.schema Demo.cashSale
              [Demo.petrol; Demo.badItem] Demo.ledger eq_refl) as (_ & _ & Hrej).
  destruct (Hrej eq_refl) as [Hwhole Hsingle].
  split; [exact Hwhole |]. exact (f_equal (@List.length _) Hsingle).
Defined.

Lemma removeOrderItem_keeps_a_row_witness :
  OrderForm.removeOrderItem 0 [OrderForm.mkOrderItemInput "petrol" "10" "2.50"]
  = [OrderForm.mkOrderItemInput "petrol" "10" "2.50"] /\
  OrderForm.removeOrderItem 0
    [OrderForm.mkOrderItemInput "petrol" "10" "2.50";
     OrderForm.mkOrderItemInput "diesel" "5" "3.00"]
  = [OrderForm.mkOrderItemInput "diesel" "5" "3.00"].
Proof.
  split.
  - destruct (removeOrderItem_keeps_a_row 0
                [OrderForm.mkOrderItemInput "petrol" "10" "2.50"]) as [Hone _].
    apply Hone. simpl. lia.
  - destruct (removeOrderItem_keeps_a_row 0
                [OrderForm.mkOrderItemInput "petrol" "10" "2.50";
                 OrderForm.mkOrderItemInput "diesel" "5" "3.00"]) as (_ & Hmany & _).
    rewrite Hmany; [reflexivity | simpl; lia].
Defined.
